(** * Vector embedding engine of the Synapse system

    A shallow embedding of [.synapse/neo4j/vector_engine.py] (class
    [VectorEngine]) and the properties of its embedding generator, its Redis
    lookaside cache, its SQLite vector store and its cosine-similarity search.

    Modelling decisions, each one local to the definition it concerns:
    - a NumPy [float64] array is the list of the IEEE-754 binary64 bit
      patterns of its elements; arithmetic is done on Rocq's primitive
      binary64 floats ([PrimFloat]), with the source's operations; the
      norm of a generated vector is also computed over the real numbers,
      where normalising gives norm 1 exactly ([Generic]);
    - [ndarray.tobytes] and [np.frombuffer] are the little-endian byte codec;
    - a Python exception is a value of [Py.result]; [try]/[except] is
      [Py.try_except];
    - text is a string of 8-bit characters, with Python's meaning of
      [lower], [split] and [strip] on the ASCII range;
    - [hashlib.md5], [hashlib.sha256], the Redis server, the sentence
      transformer and [np.random.normal] are outside the repository: the
      hashes are section variables, the server and the model are objects given
      by their methods, and the noise drawn by a call is an argument. *)

From Stdlib Require Import ZArith List String Ascii Floats Sorted Lia Bool.
From Stdlib Require Reals Lra.
From coqutil Require Import Byte LittleEndianList.
From stdpp Require Import gmap strings.
Import ListNotations.

#[local] Open Scope string_scope.
#[local] Open Scope Z_scope.

(** ** Python exceptions *)

Module Py.

Inductive exn : Type :=
| ValueError
| ConnectionError
| RuntimeError.

Inductive result (A : Type) : Type :=
| Ok (a : A)
| Raise (e : exn).
Arguments Ok {A} a.
Arguments Raise {A} e.

Definition bind {A B} (r : result A) (k : A -> result B) : result B :=
  match r with
  | Ok a => k a
  | Raise e => Raise e
  end.

(** [try: body except Exception: handler] *)
Definition try_except {A} (body : result A) (handler : exn -> result A) : result A :=
  match body with
  | Ok a => Ok a
  | Raise e => handler e
  end.

Definition raises {A} (r : result A) : Prop := exists e, r = Raise e.

(** [l[:k]] for a Python int [k]: a negative stop counts from the end. *)
Definition slice_to {A} (l : list A) (k : Z) : list A :=
  if k <? 0 then firstn (length l - Z.to_nat (- k)) l
  else firstn (Z.to_nat k) l.

End Py.

(** [x ← r; k] runs [k] on the value of [r] and propagates its exception. *)
#[export] Instance result_bind : MBind Py.result := fun A B k r => Py.bind r k.
#[export] Instance result_ret : MRet Py.result := @Py.Ok.

(** ** NumPy arrays of float64 *)

Module Np.

(** A [float64] is its 64-bit IEEE-754 pattern, [0 <= w < 2^64]. *)
Definition float64 := Z.
Definition ndarray := list float64.
Definition bytes := list byte.

Definition is_float64 (w : float64) : Prop := 0 <= w < 2 ^ 64.
Definition well_formed (a : ndarray) : Prop := Forall is_float64 a.

Definition float_of_Z (z : Z) : float := PrimFloat.of_uint63 (Uint63.of_Z z).

(** The value of a bit pattern: sign (bit 63), biased exponent (bits 52-62)
    and fraction (bits 0-51). *)
Definition f64_val (w : float64) : float :=
  let e := Z.land (Z.shiftr w 52) 2047 in
  let m := Z.land w (Z.ones 52) in
  let mag :=
    if e =? 2047 then (if m =? 0 then infinity else nan)
    else if e =? 0 then Z.ldexp (float_of_Z m) (-1074)
    else Z.ldexp (float_of_Z (m + 2 ^ 52)) (e - 1075) in
  if Z.testbit w 63 then (- mag)%float else mag.

(** The bit pattern of a value; every NaN is written as the quiet NaN
    [0x7ff8000000000000]. *)
Definition f64_bits (x : float) : float64 :=
  let sign (s : bool) := if s then 2 ^ 63 else 0 in
  match Prim2SF x with
  | S754_zero s => sign s
  | S754_infinity s => sign s + 2047 * 2 ^ 52
  | S754_nan => 2047 * 2 ^ 52 + 2 ^ 51
  | S754_finite s m e =>
      sign s + (if Z.pos m <? 2 ^ 52 then Z.pos m
                else (e + 1075) * 2 ^ 52 + (Z.pos m - 2 ^ 52))
  end.

Definition values (a : ndarray) : list float := map f64_val a.
Definition array (xs : list float) : ndarray := map f64_bits xs.

(** [a.tobytes()]: eight bytes per element, least significant first. *)
Definition tobytes (a : ndarray) : bytes := flat_map (le_split 8) a.

(** The elements of a buffer whose length is [8 * n]. *)
Fixpoint chunks (n : nat) (b : bytes) : ndarray :=
  match n with
  | O => []
  | S n' => le_combine (firstn 8 b) :: chunks n' (skipn 8 b)
  end.

(** [np.frombuffer(b, dtype=np.float64)]: [ValueError] when the buffer size
    is not a multiple of the element size. *)
Definition frombuffer (b : bytes) : Py.result ndarray :=
  if (length b mod 8 =? 0)%nat then Py.Ok (chunks (length b / 8) b)
  else Py.Raise Py.ValueError.

(** [np.zeros(n)] *)
Definition zeros (n : Z) : list float := repeat 0%float (Z.to_nat n).

(** Sum of products, accumulated from the first element on (the order of
    the additions is the BLAS kernel's; no statement below depends on
    it). *)
Fixpoint dot_from (acc : float) (xs ys : list float) : float :=
  match xs, ys with
  | x :: xs', y :: ys' => dot_from (acc + x * y)%float xs' ys'
  | _, _ => acc
  end.

(** [np.dot(a, b)] on one-dimensional arrays: [ValueError] when the shapes
    differ. *)
Definition dot (a b : ndarray) : Py.result float :=
  if (length a =? length b)%nat then Py.Ok (dot_from 0%float (values a) (values b))
  else Py.Raise Py.ValueError.

(** [np.linalg.norm(a)]: the square root of the sum of squares. *)
Definition norm_values (xs : list float) : float :=
  PrimFloat.sqrt (dot_from 0%float xs xs).
Definition linalg_norm (a : ndarray) : float := norm_values (values a).

(** [a + b] and [a / s] on arrays of one shape. *)
Fixpoint add (xs ys : list float) : list float :=
  match xs, ys with
  | x :: xs', y :: ys' => (x + y)%float :: add xs' ys'
  | _, _ => []
  end.
Definition div_scalar (xs : list float) (s : float) : list float :=
  map (fun x => (x / s)%float) xs.

(** [a[pos] += x] for [0 <= pos < len(a)]. *)
Definition add_at (xs : list float) (pos : Z) (x : float) : list float :=
  alter (fun y => (y + x)%float) (Z.to_nat pos) xs.

End Np.

(** ** Python strings, on the ASCII range *)

Module Text.

Definition code (c : ascii) : nat := nat_of_ascii c.

(** [str.lower] *)
Definition lower_char (c : ascii) : ascii :=
  if ((65 <=? code c) && (code c <=? 90))%nat then ascii_of_nat (code c + 32) else c.
Fixpoint lower (s : string) : string :=
  match s with
  | EmptyString => EmptyString
  | String c s' => String (lower_char c) (lower s')
  end.

(** [str.isspace] on one character: tab, line feed, vertical tab, form
    feed, carriage return, the four separators 28-31 and space. *)
Definition is_space (c : ascii) : bool :=
  (((9 <=? code c) && (code c <=? 13)) || ((28 <=? code c) && (code c <=? 32)))%nat.

Definition flush (cur : string) (rest : list string) : list string :=
  match cur with
  | EmptyString => rest
  | _ => cur :: rest
  end.

(** [str.split()]: the maximal runs of non-space characters. [cur] is the
    run being read. *)
Fixpoint split_from (cur : string) (s : string) : list string :=
  match s with
  | EmptyString => flush cur []
  | String c s' =>
      if is_space c then flush cur (split_from EmptyString s')
      else split_from (String.append cur (String c EmptyString)) s'
  end.
Definition split (s : string) : list string := split_from EmptyString s.

Fixpoint mem (c : ascii) (chars : string) : bool :=
  match chars with
  | EmptyString => false
  | String d chars' => Ascii.eqb c d || mem c chars'
  end.

Fixpoint lstrip (chars : string) (s : string) : string :=
  match s with
  | EmptyString => EmptyString
  | String c s' => if mem c chars then lstrip chars s' else s
  end.
Fixpoint rstrip (chars : string) (s : string) : string :=
  match s with
  | EmptyString => EmptyString
  | String c s' =>
      match rstrip chars s' with
      | EmptyString => if mem c chars then EmptyString else String c EmptyString
      | r => String c r
      end
  end.
(** [s.strip(chars)] *)
Definition strip (chars : string) (s : string) : string :=
  rstrip chars (lstrip chars s).

End Text.

(** ** The SQLite file behind [sqlite_path]

    The two tables of [initialize_vector_store], rows in [rowid] order.
    [vector_metadata.neo4j_node_id] is declared [UNIQUE]; [vectors] has the
    [AUTOINCREMENT] key [id] only, and a plain index on [neo4j_node_id].
    The counters are the [sqlite_sequence] entries of the tables. A
    timestamp is the number of seconds that [datetime('now')] denotes. The
    driver binds a NaN as [NULL], hence the optional [vector_norm]. *)

Module Sqlite.

Record MetadataRow : Type := {
  md_id : Z;
  md_node_id : string;
  md_file_path : string;
  md_content_hash : string;
  md_embedding_model : string;
  md_embedding_dim : Z;
  md_created_at : Z;
  md_updated_at : Z
}.

Record VectorRow : Type := {
  vr_id : Z;
  vr_node_id : string;
  vector_data : Np.bytes;
  vector_norm : option float
}.

Record Db : Type := {
  vector_metadata : list MetadataRow;
  vector_metadata_seq : Z;
  vectors : list VectorRow;
  vectors_seq : Z
}.

(** The file after [CREATE TABLE IF NOT EXISTS] on a new path. *)
Definition empty : Db :=
  {| vector_metadata := []; vector_metadata_seq := 0;
     vectors := []; vectors_seq := 0 |}.

Definition bind_double (x : float) : option float :=
  if PrimFloat.is_nan x then None else Some x.

(** [INSERT OR REPLACE INTO vector_metadata (neo4j_node_id, file_path,
    content_hash, embedding_model, embedding_dim, updated_at)]: the row
    that holds the unique [neo4j_node_id] is deleted, the new row takes the
    next [id], and [created_at] takes its default, the current time. *)
Definition insert_or_replace_metadata (db : Db) (node_id file_path content_hash model : string)
    (dim now : Z) : Db :=
  let id := vector_metadata_seq db + 1 in
  {| vector_metadata :=
       List.filter (fun r => negb (String.eqb (md_node_id r) node_id)) (vector_metadata db)
       ++ [ {| md_id := id; md_node_id := node_id; md_file_path := file_path;
               md_content_hash := content_hash; md_embedding_model := model;
               md_embedding_dim := dim; md_created_at := now; md_updated_at := now |} ];
     vector_metadata_seq := id;
     vectors := vectors db;
     vectors_seq := vectors_seq db |}.

(** [INSERT OR REPLACE INTO vectors (neo4j_node_id, vector_data,
    vector_norm)]: the only key of [vectors] is the generated [id], which
    never conflicts, so the row is added. *)
Definition insert_or_replace_vector (db : Db) (node_id : string) (blob : Np.bytes)
    (norm : float) : Db :=
  let id := vectors_seq db + 1 in
  {| vector_metadata := vector_metadata db;
     vector_metadata_seq := vector_metadata_seq db;
     vectors := vectors db
       ++ [ {| vr_id := id; vr_node_id := node_id; vector_data := blob;
               vector_norm := bind_double norm |} ];
     vectors_seq := id |}.

(** [SELECT vector_data FROM vectors WHERE neo4j_node_id = ?] followed by
    [fetchone()]: the matching row of least [rowid]. *)
Definition select_vector_data (db : Db) (node_id : string) : option Np.bytes :=
  vector_data <$> List.find (fun r => String.eqb (vr_node_id r) node_id) (vectors db).

(** [SELECT COUNT( * ) FROM vectors] *)
Definition count_vectors (db : Db) : Z := Z.of_nat (length (vectors db)).

Definition sum_floats (xs : list float) : float :=
  fold_left (fun acc x => (acc + x)%float) xs 0%float.

(** [SELECT AVG(vector_norm) FROM vectors]: over the rows whose norm is not
    [NULL]; [NULL] when there is none. *)
Definition avg_vector_norm (db : Db) : option float :=
  match omap vector_norm (vectors db) with
  | [] => None
  | xs => Some (sum_floats xs / Np.float_of_Z (Z.of_nat (length xs)))%float
  end.

(** [SELECT embedding_model, COUNT( * ) FROM vector_metadata GROUP BY
    embedding_model], read into a [dict]. *)
Definition count_by_model (db : Db) : gmap string Z :=
  fold_left (fun m r => <[ md_embedding_model r := default 0 (m !! md_embedding_model r) + 1 ]> m)
    (vector_metadata db) ∅.

(** [DELETE FROM vectors] and [DELETE FROM vector_metadata] *)
Definition delete_all (db : Db) : Db :=
  {| vector_metadata := []; vector_metadata_seq := vector_metadata_seq db;
     vectors := []; vectors_seq := vectors_seq db |}.

End Sqlite.

(** ** The collaborators of the engine *)

(** A Redis client, by the three commands the engine sends. [setex] returns
    the server as the write leaves it. *)
#[local] Unset Elimination Schemes.
Inductive RedisClient : Type :=
  Redis {
    redis_ping : Py.result unit;
    redis_get : string -> Py.result (option Np.bytes);
    redis_setex : string -> Z -> Np.bytes -> Py.result RedisClient
  }.
#[local] Set Elimination Schemes.

(** A loaded [SentenceTransformer]: [encode(text, convert_to_numpy=True)],
    converted by [astype(np.float64)]. *)
Record SentenceTransformer : Type := {
  encode : string -> Py.result Np.ndarray
}.

(** ** class VectorEngine *)

Record VectorEngine : Type := {
  embedding_model : string;
  vocabulary : gmap string nat;
  redis_client : option RedisClient;
  transformer_model : option SentenceTransformer
}.

(** [self.embedding_dim = 1024] *)
Definition embedding_dim : Z := 1024.
(** [self.embedding_cache_ttl = 604800] *)
Definition embedding_cache_ttl : Z := 604800.
Definition cache_prefix : string := "synapse:embedding:".

Definition startswith (s p : string) : bool := String.prefix p s.

(** [__init__]: [env_model] is the value of [EMBEDDING_MODEL], [connect] the
    outcome of [redis.Redis(...)], [load] the outcome of
    [SentenceTransformer(self.embedding_model)]. *)
Definition init (env_model : option string) (connect : Py.result RedisClient)
    (load : Py.result SentenceTransformer) : VectorEngine :=
  let model := default "simple_tfidf" env_model in
  {| embedding_model := model;
     vocabulary := ∅;
     redis_client :=
       match Py.try_except
               (client ← connect; _ ← redis_ping client; Py.Ok (Some client))
               (fun _ => Py.Ok None) with
       | Py.Ok c => c
       | Py.Raise _ => None
       end;
     transformer_model :=
       if startswith model "BAAI/" then
         match load with
         | Py.Ok m => Some m
         | Py.Raise _ => None
         end
       else None |}.

Definition set_vocabulary (e : VectorEngine) (v : gmap string nat) : VectorEngine :=
  {| embedding_model := embedding_model e; vocabulary := v;
     redis_client := redis_client e; transformer_model := transformer_model e |}.

Definition set_redis_client (e : VectorEngine) (c : option RedisClient) : VectorEngine :=
  {| embedding_model := embedding_model e; vocabulary := vocabulary e;
     redis_client := c; transformer_model := transformer_model e |}.

(** *** Embedding generation and the query cache *)

Section Generator.

(** [int(hashlib.md5(word.encode()).hexdigest(), 16)] *)
Variable md5_int : string -> Z.
(** [hashlib.sha256(text.encode()).hexdigest()] *)
Variable sha256_hexdigest : string -> string.

(** [words = text.lower().split()], then
    [[w.strip('.,!?;:()[]{}') for w in words if len(w) > 2]] *)
Definition tokenize (text : string) : list string :=
  map (Text.strip ".,!?;:()[]{}")
    (List.filter (fun w => (2 <? String.length w)%nat) (Text.split (Text.lower text))).

(** [if word not in self.vocabulary: self.vocabulary[word] = len(self.vocabulary)] *)
Definition learn (vocab : gmap string nat) (word : string) : gmap string nat :=
  match vocab !! word with
  | Some _ => vocab
  | None => <[ word := size vocab ]> vocab
  end.

(** [word_count[word] = word_count.get(word, 0) + 1], the dict kept in
    insertion order *)
Fixpoint bump (word : string) (word_count : list (string * Z)) : list (string * Z) :=
  match word_count with
  | [] => [(word, 1)]
  | (w, c) :: rest =>
      if String.eqb w word then (w, c + 1) :: rest else (w, c) :: bump word rest
  end.
Definition count_words (words : list string) : list (string * Z) :=
  fold_left (fun wc w => bump w wc) words [].

(** The two positions of a word. *)
Definition positions (word : string) : list Z :=
  let word_hash := md5_int word in
  [word_hash mod embedding_dim; (word_hash / embedding_dim) mod embedding_dim].

(** One round of the loop over [word_count.items()]. *)
Definition scatter (n_words : Z) (tf_vector : list float) (item : string * Z) : list float :=
  let '(word, count) := item in
  fold_left
    (fun tf pos => Np.add_at tf pos (Np.float_of_Z count / Np.float_of_Z n_words)%float)
    (positions word) tf_vector.

(** The vector before the noise is added. *)
Definition tf_vector_of (words : list string) : list float :=
  fold_left (scatter (Z.of_nat (length words))) (count_words words) (Np.zeros embedding_dim).

(** [norm = np.linalg.norm(v); if norm > 0: v = v / norm] *)
Definition normalize (v : list float) : list float :=
  let norm := Np.norm_values v in
  if (0 <? norm)%float then Np.div_scalar v norm else v.

(** [noise] is the array drawn by [np.random.normal(0, 0.01,
    self.embedding_dim)] in this call. *)
Definition simple_tfidf_embedding (e : VectorEngine) (text : string) (noise : list float)
    : Np.ndarray * VectorEngine :=
  let words := tokenize text in
  let vocab := fold_left learn words (vocabulary e) in
  let tf_vector := tf_vector_of words in
  let tf_vector := Np.add tf_vector noise in
  (Np.array (normalize tf_vector), set_vocabulary e vocab).

Definition transformer_embedding (e : VectorEngine) (text : string) (noise : list float)
    : Np.ndarray * VectorEngine :=
  match transformer_model e with
  | None => simple_tfidf_embedding e text noise
  | Some model =>
      match encode model text with
      | Py.Ok embedding => (embedding, e)
      | Py.Raise _ => simple_tfidf_embedding e text noise
      end
  end.

(** The parameter [file_path] of the method is not read. *)
Definition generate_embedding (e : VectorEngine) (text : string) (noise : list float)
    : Np.ndarray * VectorEngine :=
  if String.eqb (embedding_model e) "simple_tfidf" then simple_tfidf_embedding e text noise
  else if startswith (embedding_model e) "BAAI/" then transformer_embedding e text noise
  else simple_tfidf_embedding e text noise.

Definition _get_embedding_cache_key (e : VectorEngine) (text : string) : string :=
  let text_hash := String.substring 0 16 (sha256_hexdigest text) in
  String.append cache_prefix
    (String.append (embedding_model e) (String.append ":" text_hash)).

(** [if cached_data:] on [bytes] *)
Definition nonempty (b : Np.bytes) : bool :=
  match b with
  | [] => false
  | _ => true
  end.

Definition get_cached_embedding (e : VectorEngine) (text : string)
    : Py.result (option Np.ndarray) :=
  match redis_client e with
  | None => Py.Ok None
  | Some client =>
      Py.try_except
        (let cache_key := _get_embedding_cache_key e text in
         cached_data ← redis_get client cache_key;
         match cached_data with
         | Some data =>
             if nonempty data then (a ← Np.frombuffer data; Py.Ok (Some a))
             else Py.Ok None
         | None => Py.Ok None
         end)
        (fun _ => Py.Ok None)
  end.

Definition cache_embedding (e : VectorEngine) (text : string) (embedding : Np.ndarray)
    : Py.result unit * VectorEngine :=
  match redis_client e with
  | None => (Py.Ok tt, e)
  | Some client =>
      match Py.try_except
              (let cache_key := _get_embedding_cache_key e text in
               let embedding_bytes := Np.tobytes embedding in
               client' ← redis_setex client cache_key embedding_cache_ttl embedding_bytes;
               Py.Ok (Some client'))
              (fun _ => Py.Ok None) with
      | Py.Ok (Some client') => (Py.Ok tt, set_redis_client e (Some client'))
      | Py.Ok None => (Py.Ok tt, e)
      | Py.Raise ex => (Py.Raise ex, e)
      end
  end.

Definition generate_embedding_cached (e : VectorEngine) (text : string) (noise : list float)
    : Py.result Np.ndarray * VectorEngine :=
  match get_cached_embedding e text with
  | Py.Raise ex => (Py.Raise ex, e)
  | Py.Ok (Some cached) => (Py.Ok cached, e)
  | Py.Ok None =>
      let '(embedding, e1) := generate_embedding e text noise in
      let '(stored, e2) := cache_embedding e1 text embedding in
      match stored with
      | Py.Ok _ => (Py.Ok embedding, e2)
      | Py.Raise ex => (Py.Raise ex, e2)
      end
  end.

End Generator.

(** *** The vector store *)

(** [initialize_vector_store]: [CREATE TABLE IF NOT EXISTS] and [CREATE INDEX
    IF NOT EXISTS] make the tables of a new file and leave those of an
    existing one as they are. [file] is [None] when [sqlite_path] holds no
    database yet. *)
Definition initialize_vector_store (file : option Sqlite.Db) : Sqlite.Db :=
  default Sqlite.empty file.

(** [now] is the value of [datetime('now')]. The vector is written as given:
    the method holds no test of [len(embedding)] against [embedding_dim]. *)
Definition store_embedding (e : VectorEngine) (db : Sqlite.Db)
    (neo4j_node_id file_path content_hash : string) (embedding : Np.ndarray) (now : Z)
    : Sqlite.Db :=
  let db := Sqlite.insert_or_replace_metadata db neo4j_node_id file_path content_hash
              (embedding_model e) embedding_dim now in
  let vector_blob := Np.tobytes embedding in
  let vector_norm := Np.linalg_norm embedding in
  Sqlite.insert_or_replace_vector db neo4j_node_id vector_blob vector_norm.

Definition get_embedding (db : Sqlite.Db) (neo4j_node_id : string)
    : Py.result (option Np.ndarray) :=
  match Sqlite.select_vector_data db neo4j_node_id with
  | Some blob => a ← Np.frombuffer blob; Py.Ok (Some a)
  | None => Py.Ok None
  end.

(** Descending order of the score, equal scores in their order of arrival:
    [results.sort(key=lambda x: x[1], reverse=True)]. *)
Fixpoint insert_desc (x : string * float) (l : list (string * float)) : list (string * float) :=
  match l with
  | [] => [x]
  | y :: l' => if (snd x <? snd y)%float then y :: insert_desc x l' else x :: l
  end.
Definition sort_desc (l : list (string * float)) : list (string * float) :=
  fold_right insert_desc [] l.

(** The body of the loop over [cursor.fetchall()], for one row. *)
Definition score_row (query_embedding : Np.ndarray) (query_norm min_similarity : float)
    (row : Sqlite.VectorRow) : Py.result (list (string * float)) :=
  stored_vector ← Np.frombuffer (Sqlite.vector_data row);
  dot_product ← Np.dot query_embedding stored_vector;
  let stored_norm := Np.linalg_norm stored_vector in
  if (0 <? stored_norm)%float then
    let similarity := (dot_product / (query_norm * stored_norm))%float in
    if (min_similarity <=? similarity)%float
    then Py.Ok [(Sqlite.vr_node_id row, similarity)]
    else Py.Ok []
  else Py.Ok [].

Fixpoint scan (query_embedding : Np.ndarray) (query_norm min_similarity : float)
    (rows : list Sqlite.VectorRow) : Py.result (list (string * float)) :=
  match rows with
  | [] => Py.Ok []
  | row :: rest =>
      hit ← score_row query_embedding query_norm min_similarity row;
      hits ← scan query_embedding query_norm min_similarity rest;
      Py.Ok (hit ++ hits)%list
  end.

Definition similarity_search (db : Sqlite.Db) (query_embedding : Np.ndarray) (top_k : Z)
    (min_similarity : float) : Py.result (list (string * float)) :=
  let query_norm := Np.linalg_norm query_embedding in
  if (query_norm =? 0)%float then Py.Ok []
  else
    results ← scan query_embedding query_norm min_similarity (Sqlite.vectors db);
    Py.Ok (Py.slice_to (sort_desc results) top_k).

Definition get_stored_embeddings_count (db : Sqlite.Db) : Z := Sqlite.count_vectors db.

Record Stats : Type := {
  by_model : gmap string Z;
  total_vectors : Z;
  avg_vector_norm : float
}.

(** [bool(x)] on a float *)
Definition truthy (x : float) : bool := negb (x =? 0)%float.

Definition get_embedding_stats (db : Sqlite.Db) : Stats :=
  {| by_model := Sqlite.count_by_model db;
     total_vectors := Sqlite.count_vectors db;
     avg_vector_norm :=
       match Sqlite.avg_vector_norm db with
       | Some avg_norm => if truthy avg_norm then avg_norm else 0%float
       | None => 0%float
       end |}.

Definition clear_embeddings (db : Sqlite.Db) : Sqlite.Db := Sqlite.delete_all db.

(** ** Vocabulary of the statements *)

(** Descending order of two consecutive results. *)
Definition descending (a b : string * float) : Prop := (snd b <=? snd a)%float = true.

(** A result at or above the threshold. *)
Definition passes (min_similarity : float) (hit : string * float) : Prop :=
  (min_similarity <=? snd hit)%float = true.

(** [hit] is the cosine similarity of the query and of a stored row whose
    norm is positive. *)
Definition scored_from (db : Sqlite.Db) (query : Np.ndarray) (hit : string * float) : Prop :=
  exists row stored dot_product,
    In row (Sqlite.vectors db) /\
    Sqlite.vr_node_id row = fst hit /\
    Np.frombuffer (Sqlite.vector_data row) = Py.Ok stored /\
    Np.dot query stored = Py.Ok dot_product /\
    (0 <? Np.linalg_norm stored)%float = true /\
    snd hit = (dot_product / (Np.linalg_norm query * Np.linalg_norm stored))%float.

(** Every stored vector has the shape of the query. *)
Definition aligned (db : Sqlite.Db) (query : Np.ndarray) : Prop :=
  Forall (fun row => length (Sqlite.vector_data row) = (length query * 8)%nat)
    (Sqlite.vectors db).

(** Every element of the array is a zero. *)
Definition all_zero (a : Np.ndarray) : bool :=
  forallb (fun w => (Np.f64_val w =? 0)%float) a.

(** The cache is disabled (no client), or every read of the server fails. *)
Definition cache_unavailable (e : VectorEngine) : Prop :=
  match redis_client e with
  | None => True
  | Some client => forall key, Py.raises (redis_get client key)
  end.

(** The rows of [vectors] held for a node. *)
Definition records_of (db : Sqlite.Db) (neo4j_node_id : string) : list Sqlite.VectorRow :=
  List.filter (fun r => String.eqb (Sqlite.vr_node_id r) neo4j_node_id) (Sqlite.vectors db).

(** The files that calls of the engine build from a new store. *)
Inductive reachable : Sqlite.Db -> Prop :=
| reachable_new : reachable (initialize_vector_store None)
| reachable_store e db node_id file_path content_hash embedding now :
    reachable db ->
    reachable (store_embedding e db node_id file_path content_hash embedding now)
| reachable_clear db :
    reachable db -> reachable (clear_embeddings db).

(** What [similarity_search] promises for a query, a limit and a threshold:
    a result is returned whenever the stored vectors have the shape of the
    query, and a returned list holds scores of stored rows of positive norm
    only, none below the threshold, in descending order, [top_k] at most; a
    node whose rows all have a norm that is not positive is not returned. *)
Definition search_contract (db : Sqlite.Db) (query : Np.ndarray) (top_k : Z)
    (min_similarity : float) : Prop :=
  (aligned db query ->
   exists results, similarity_search db query top_k min_similarity = Py.Ok results) /\
  forall results,
    similarity_search db query top_k min_similarity = Py.Ok results ->
    Forall (fun hit => passes min_similarity hit /\ scored_from db query hit) results /\
    Sorted descending results /\
    Z.of_nat (length results) <= top_k /\
    forall node_id,
      (forall row stored,
         In row (Sqlite.vectors db) -> Sqlite.vr_node_id row = node_id ->
         Np.frombuffer (Sqlite.vector_data row) = Py.Ok stored ->
         (0 <? Np.linalg_norm stored)%float = false) ->
      ~ In node_id (map fst results).

(** The statistics of a store without records. *)
Definition no_stats : Stats :=
  {| by_model := ∅; total_vectors := 0; avg_vector_norm := 0%float |}.

(** Sample data: an engine without cache and model, a clock, small arrays. *)
Definition engine0 : VectorEngine :=
  init None (Py.Raise Py.ConnectionError) (Py.Raise Py.RuntimeError).
Definition f64 (x : float) : Np.float64 := Np.f64_bits x.
Definition vec1 : Np.ndarray := [f64 1%float].
Definition vec2 : Np.ndarray := [f64 2%float].
Definition store0 : Sqlite.Db := initialize_vector_store None.
Definition store2 : Sqlite.Db :=
  store_embedding engine0 (store_embedding engine0 store0 "node" "a.py" "h1" vec1 100)
    "node" "a.py" "h2" vec2 200.
Definition store3 : Sqlite.Db :=
  let db := store_embedding engine0 store0 "A" "a.py" "ha" [f64 1%float; f64 0%float] 1 in
  let db := store_embedding engine0 db "B" "b.py" "hb" [f64 1%float; f64 1%float] 2 in
  store_embedding engine0 db "C" "c.py" "hc" [f64 0%float; f64 1%float] 3.

(** A server that is reachable when the engine starts and fails afterwards;
    an engine that holds it as its client. *)
Definition failing_redis : RedisClient :=
  Redis (Py.Ok tt) (fun _ => Py.Raise Py.ConnectionError)
    (fun _ _ _ => Py.Raise Py.ConnectionError).
Definition engine_failing_cache : VectorEngine :=
  init None (Py.Ok failing_redis) (Py.Raise Py.RuntimeError).

(** Hashes for the samples. *)
Definition sample_md5 (word : string) : Z := Z.of_nat (String.length word) * 1025 + 7.
Definition sample_sha256 (text : string) : string := "00112233445566778899aabbccddeeff".

(** ** The convenience functions *)

(** [create_vector_engine()]: a new engine, and the store file after
    [initialize_vector_store]. *)
Definition create_vector_engine (env_model : option string) (connect : Py.result RedisClient)
    (load : Py.result SentenceTransformer) (file : option Sqlite.Db)
    : VectorEngine * Sqlite.Db :=
  (init env_model connect load, initialize_vector_store file).

(** [generate_query_embedding(query)]: the embedding that a new engine
    generates. *)
Definition generate_query_embedding (md5_int : string -> Z) (env_model : option string)
    (connect : Py.result RedisClient) (load : Py.result SentenceTransformer)
    (query : string) (noise : list float) : Np.ndarray :=
  fst (generate_embedding md5_int (init env_model connect load) query noise).

(** ** Vocabulary of the further statements *)

(** One call of [store_embedding]: node, path, hash, vector and time. *)
Definition StoreCall : Type := string * string * string * Np.ndarray * Z.
Definition call_node (c : StoreCall) : string := fst (fst (fst (fst c))).

(** A run of calls of [store_embedding] by one engine, in order. *)
Definition store_all (e : VectorEngine) (db : Sqlite.Db) (calls : list StoreCall) : Sqlite.Db :=
  fold_left
    (fun db '(node_id, file_path, content_hash, embedding, now) =>
       store_embedding e db node_id file_path content_hash embedding now)
    calls db.

(** The node ids that the two tables hold. *)
Definition metadata_nodes (db : Sqlite.Db) : list string :=
  map Sqlite.md_node_id (Sqlite.vector_metadata db).
Definition vector_nodes (db : Sqlite.Db) : list string :=
  map Sqlite.vr_node_id (Sqlite.vectors db).

(** The metadata rows held for a node. *)
Definition metadata_of (db : Sqlite.Db) (neo4j_node_id : string) : list Sqlite.MetadataRow :=
  List.filter (fun r => String.eqb (Sqlite.md_node_id r) neo4j_node_id)
    (Sqlite.vector_metadata db).

(** The two tables agree: the metadata holds one row per node, for the nodes
    that have vector rows and no other, and every vector row holds a whole
    number of 8-byte elements. *)
Definition consistent (db : Sqlite.Db) : Prop :=
  List.NoDup (metadata_nodes db) /\
  (forall n, In n (metadata_nodes db) <-> In n (vector_nodes db)) /\
  Forall (fun r => (length (Sqlite.vector_data r) mod 8)%nat = 0%nat) (Sqlite.vectors db).

(** Two rows that differ in their [id] at most, and two stores whose tables
    hold such rows in the same order. *)
Definition same_vector (r1 r2 : Sqlite.VectorRow) : Prop :=
  Sqlite.vr_node_id r1 = Sqlite.vr_node_id r2 /\
  Sqlite.vector_data r1 = Sqlite.vector_data r2 /\
  Sqlite.vector_norm r1 = Sqlite.vector_norm r2.
Definition same_metadata (m1 m2 : Sqlite.MetadataRow) : Prop :=
  Sqlite.md_node_id m1 = Sqlite.md_node_id m2 /\
  Sqlite.md_file_path m1 = Sqlite.md_file_path m2 /\
  Sqlite.md_content_hash m1 = Sqlite.md_content_hash m2 /\
  Sqlite.md_embedding_model m1 = Sqlite.md_embedding_model m2 /\
  Sqlite.md_embedding_dim m1 = Sqlite.md_embedding_dim m2 /\
  Sqlite.md_created_at m1 = Sqlite.md_created_at m2 /\
  Sqlite.md_updated_at m1 = Sqlite.md_updated_at m2.
Definition same_records (db1 db2 : Sqlite.Db) : Prop :=
  Forall2 same_metadata (Sqlite.vector_metadata db1) (Sqlite.vector_metadata db2) /\
  Forall2 same_vector (Sqlite.vectors db1) (Sqlite.vectors db2).

(** The characters that [tokenize] strips. *)
Definition punctuation : string := ".,!?;:()[]{}".

Definition is_upper (c : ascii) : bool :=
  ((65 <=? Text.code c) && (Text.code c <=? 90))%nat.

Fixpoint chars (s : string) : list ascii :=
  match s with
  | EmptyString => []
  | String c s' => c :: chars s'
  end.

Definition first_char (s : string) : option ascii :=
  match s with
  | EmptyString => None
  | String c _ => Some c
  end.
Fixpoint last_char (s : string) : option ascii :=
  match s with
  | EmptyString => None
  | String c EmptyString => Some c
  | String _ s' => last_char s'
  end.

(** [word_count.get(word, 0)] *)
Fixpoint get_count (word_count : list (string * Z)) (word : string) : Z :=
  match word_count with
  | [] => 0
  | (w, c) :: rest => if String.eqb w word then c else get_count rest word
  end.

(** The sum of the counts of a [word_count]. *)
Definition total_count (word_count : list (string * Z)) : Z :=
  fold_right (fun item acc => snd item + acc) 0 word_count.

(** An index table: every index is below the size of the table, and no two
    words share one. *)
Definition vocabulary_ok (vocab : gmap string nat) : Prop :=
  (forall w i, vocab !! w = Some i -> (i < size vocab)%nat) /\
  (forall w1 w2 i, vocab !! w1 = Some i -> vocab !! w2 = Some i -> w1 = w2).

(** The lookup of the text in the cache yields no usable entry: there is no
    client, the read fails, the key is absent, or the bytes held are empty
    or not a whole number of elements. *)
Definition cache_miss (sha256_hexdigest : string -> string) (e : VectorEngine) (text : string)
    : Prop :=
  match redis_client e with
  | None => True
  | Some client =>
      match redis_get client (_get_embedding_cache_key sha256_hexdigest e text) with
      | Py.Raise _ => True
      | Py.Ok None => True
      | Py.Ok (Some data) => data = [] \/ (length data mod 8)%nat <> 0%nat
      end
  end.

(** A server that holds [kv], takes [writes] more writes and fails then.
    Expiry is not modelled. *)
Fixpoint memory_redis (writes : nat) (kv : gmap string Np.bytes) : RedisClient :=
  Redis (Py.Ok tt)
    (fun key => Py.Ok (kv !! key))
    (fun key _ value =>
       match writes with
       | O => Py.Raise Py.ConnectionError
       | S writes' => Py.Ok (memory_redis writes' (<[ key := value ]> kv))
       end).

(** The number of metadata rows of a model. *)
Definition rows_of_model (db : Sqlite.Db) (model : string) : nat :=
  length (List.filter (fun r => String.eqb (Sqlite.md_embedding_model r) model)
            (Sqlite.vector_metadata db)).

(** The row that [store3] holds for the node B. *)
Definition row_B : Sqlite.VectorRow :=
  {| Sqlite.vr_id := 2; Sqlite.vr_node_id := "B";
     Sqlite.vector_data := Np.tobytes [f64 1%float; f64 1%float];
     Sqlite.vector_norm := Some (sqrt 2)%float |}.

(** Decidable form of [Np.well_formed]. *)
Definition well_formedb (a : Np.ndarray) : bool :=
  forallb (fun w => (0 <=? w) && (w <? 2 ^ 64)) a.

(** Sample data: an engine with a working cache, a transformer that returns
    three elements, a transformer that fails. *)
Definition engine_cached : VectorEngine :=
  init None (Py.Ok (memory_redis 2 ∅)) (Py.Raise Py.RuntimeError).
Definition short_model : SentenceTransformer :=
  {| encode := fun _ => Py.Ok [f64 1%float; f64 2%float; f64 3%float] |}.
Definition broken_model : SentenceTransformer :=
  {| encode := fun _ => Py.Raise Py.RuntimeError |}.
Definition engine_bge : VectorEngine :=
  init (Some "BAAI/bge-m3") (Py.Raise Py.ConnectionError) (Py.Ok short_model).
Definition engine_bge_cached : VectorEngine :=
  init (Some "BAAI/bge-m3") (Py.Ok (memory_redis 2 ∅)) (Py.Ok short_model).
Definition engine_bge_broken : VectorEngine :=
  init (Some "BAAI/bge-m3") (Py.Raise Py.ConnectionError) (Py.Ok broken_model).

(** ** The fallback generator over an arithmetic

    Lines 119-146 of the source compute with six operations on numbers:
    [+], [*] (in the norm), [/], the square root, the conversion of an
    [int] and the test [norm > 0]. [Generic] is the same program with these
    operations as a parameter: at [binary64] it is the generator above, at
    [exact] it computes on real numbers, without rounding. *)

Module Generic.

Import Reals.

Record Arithmetic (F : Type) : Type := {
  zero : F;
  plus : F -> F -> F;
  times : F -> F -> F;
  divide : F -> F -> F;
  root : F -> F;
  of_int : Z -> F;
  positive : F -> bool
}.
Arguments zero {F}.
Arguments plus {F}.
Arguments times {F}.
Arguments divide {F}.
Arguments root {F}.
Arguments of_int {F}.
Arguments positive {F}.

(** The arithmetic of NumPy's [float64]. *)
Definition binary64 : Arithmetic float :=
  {| zero := 0%float; plus := PrimFloat.add; times := PrimFloat.mul;
     divide := PrimFloat.div; root := PrimFloat.sqrt; of_int := Np.float_of_Z;
     positive := fun x => (0 <? x)%float |}.

(** The arithmetic of the real numbers. *)
Definition exact : Arithmetic R :=
  {| zero := 0%R; plus := Rplus; times := Rmult; divide := Rdiv; root := R_sqrt.sqrt;
     of_int := IZR;
     positive := fun x => if Rlt_dec 0 x then true else false |}.

Section Program.

Context {F : Type} (A : Arithmetic F).
Variable md5_int : string -> Z.

(** [np.zeros(n)] *)
Definition zeros (n : Z) : list F := repeat (zero A) (Z.to_nat n).

Fixpoint dot_from (acc : F) (xs ys : list F) : F :=
  match xs, ys with
  | x :: xs', y :: ys' => dot_from (plus A acc (times A x y)) xs' ys'
  | _, _ => acc
  end.

(** [np.linalg.norm(v)] *)
Definition norm_values (xs : list F) : F := root A (dot_from (zero A) xs xs).

(** [a + b] and [a / s] *)
Fixpoint add (xs ys : list F) : list F :=
  match xs, ys with
  | x :: xs', y :: ys' => plus A x y :: add xs' ys'
  | _, _ => []
  end.
Definition div_scalar (xs : list F) (s : F) : list F := map (fun x => divide A x s) xs.

(** [a[pos] += x] *)
Definition add_at (xs : list F) (pos : Z) (x : F) : list F :=
  alter (fun y => plus A y x) (Z.to_nat pos) xs.

(** [for pos in positions: tf_vector[pos] += count / len(words)] *)
Definition scatter (n_words : Z) (tf_vector : list F) (item : string * Z) : list F :=
  let '(word, count) := item in
  fold_left
    (fun tf pos => add_at tf pos (divide A (of_int A count) (of_int A n_words)))
    (positions md5_int word) tf_vector.

Definition tf_vector_of (words : list string) : list F :=
  fold_left (scatter (Z.of_nat (length words))) (count_words words) (zeros embedding_dim).

(** [norm = np.linalg.norm(v); if norm > 0: v = v / norm] *)
Definition normalize (v : list F) : list F :=
  let norm := norm_values v in
  if positive A norm then div_scalar v norm else v.

(** The elements of the array that [simple_tfidf_embedding] returns. *)
Definition simple_tfidf_embedding (text : string) (noise : list F) : list F :=
  let words := tokenize text in
  let tf_vector := tf_vector_of words in
  let tf_vector := add tf_vector noise in
  normalize tf_vector.

End Program.

(** Vectors of real numbers: the zero vector, a vector without a negative
    element, a vector with a positive element. *)
Definition zero_vector (v : list R) : Prop := Forall (fun x => x = 0%R) v.
Definition nonneg (v : list R) : Prop := Forall (Rle 0) v.
Definition some_positive (v : list R) : Prop := exists i y, v !! i = Some y /\ (0 < y)%R.

End Generic.

(** ** Sample runs *)

Example tokenize_sample :
  tokenize "The quick brown fox, the LAZY dog (the end) ... ok."
  = ["the"; "quick"; "brown"; "fox"; "the"; "lazy"; "dog"; "the"; "end"; EmptyString; "ok"].
Proof. reflexivity. Qed.

Example count_words_sample :
  count_words (tokenize "The quick brown fox, the LAZY dog (the end).")
  = [("the", 3); ("quick", 1); ("brown", 1); ("fox", 1); ("lazy", 1); ("dog", 1); ("end", 1)].
Proof. reflexivity. Qed.

Example f64_sample :
  f64 1%float = 0x3ff0000000000000 /\ Np.f64_val 0xc004000000000000 = (-2.5)%float.
Proof. split; reflexivity. Qed.

Example tobytes_sample :
  Np.tobytes vec1 = [Byte.x00; Byte.x00; Byte.x00; Byte.x00; Byte.x00; Byte.x00; Byte.xf0; Byte.x3f].
Proof. reflexivity. Qed.

Example init_without_redis : redis_client engine0 = None.
Proof. reflexivity. Qed.

Example init_with_redis : redis_client engine_failing_cache = Some failing_redis.
Proof. reflexivity. Qed.

Example stats_sample :
  total_vectors (get_embedding_stats store3) = 3 /\
  by_model (get_embedding_stats store3) !! "simple_tfidf" = Some 3 /\
  total_vectors (get_embedding_stats store2) = 2 /\
  by_model (get_embedding_stats store2) !! "simple_tfidf" = Some 1.
Proof. repeat split; vm_compute; reflexivity. Qed.

(** * Properties *)

(** ** The byte codec of arrays *)

Module NpFacts.
Import Np.

Lemma tobytes_cons (w : float64) (a : ndarray) :
  tobytes (w :: a) = (le_split 8 w ++ tobytes a)%list.
Proof. reflexivity. Qed.

Lemma length_tobytes (a : ndarray) : length (tobytes a) = (length a * 8)%nat.
Proof.
  induction a as [|w a IH]; [reflexivity|].
  rewrite tobytes_cons, length_app, length_le_split, IH. simpl. lia.
Qed.

Lemma chunks_tobytes (a : ndarray) :
  well_formed a -> chunks (length a) (tobytes a) = a.
Proof.
  induction 1 as [|w a Hw _ IH]; [reflexivity|].
  rewrite tobytes_cons. cbn [length chunks].
  rewrite (take_app_length' (le_split 8 w) (tobytes a) 8) by (symmetry; apply length_le_split).
  rewrite (drop_app_length' (le_split 8 w) (tobytes a) 8) by (symmetry; apply length_le_split).
  rewrite le_combine_split, IH. f_equal.
  apply Z.mod_small. exact Hw.
Qed.

(** Decoding the bytes of an array gives the array back, bit for bit. *)
Lemma frombuffer_tobytes (a : ndarray) :
  well_formed a -> frombuffer (tobytes a) = Py.Ok a.
Proof.
  intros Ha. unfold frombuffer.
  rewrite length_tobytes, Nat.Div0.mod_mul, Nat.div_mul by discriminate.
  simpl. f_equal. apply chunks_tobytes, Ha.
Qed.

Lemma length_chunks (n : nat) (b : bytes) : length (chunks n b) = n.
Proof. revert b. induction n as [|n IH]; intros b; simpl; [|rewrite IH]; reflexivity. Qed.

Lemma frombuffer_length (b : bytes) (a : ndarray) :
  frombuffer b = Py.Ok a -> length b = (length a * 8)%nat.
Proof.
  unfold frombuffer. destruct (Nat.eqb_spec (length b mod 8) 0) as [E|]; [|discriminate].
  intros Heq. assert (a = chunks (length b / 8) b) as -> by congruence.
  rewrite length_chunks.
  rewrite (Nat.div_mod_eq (length b) 8) at 1. rewrite E. lia.
Qed.

(** The norm of an array of zeros is zero. *)
Lemma dot_from_zeros (n : nat) :
  dot_from 0%float (repeat 0%float n) (repeat 0%float n) = 0%float.
Proof. induction n as [|n IH]; [reflexivity|]. simpl. exact IH. Qed.

End NpFacts.

(** ** The order of binary64 values *)

Module FloatOrder.

Lemma SFcompare_antisym (f1 f2 : spec_float) :
  SFcompare f2 f1 = option_map CompOpp (SFcompare f1 f2).
Proof.
  destruct f1 as [[]|[]| |[] m1 e1], f2 as [[]|[]| |[] m2 e2]; try reflexivity;
    cbn [SFcompare option_map]; rewrite (Z.compare_antisym e1 e2);
    destruct (e1 ?= e2)%Z; cbn [CompOpp]; try reflexivity;
    pose proof (Pos.compare_cont_antisym m1 m2 Eq) as A; cbn [CompOpp] in A;
    change (PosDef.Pos.compare_cont Eq m2 m1) with (Pos.compare_cont Eq m2 m1);
    change (PosDef.Pos.compare_cont Eq m1 m2) with (Pos.compare_cont Eq m1 m2);
    rewrite <- A; destruct (Pos.compare_cont Eq m1 m2); reflexivity.
Qed.

Lemma SFcompare_defined (f1 f2 : spec_float) :
  f1 <> S754_nan -> f2 <> S754_nan -> SFcompare f1 f2 <> None.
Proof. destruct f1, f2; cbn; congruence. Qed.

Lemma leb_not_nan_r (m x : float) : (m <=? x)%float = true -> Prim2SF x <> S754_nan.
Proof.
  rewrite leb_spec. unfold SFleb. intros H E. rewrite E in H.
  destruct (Prim2SF m); discriminate.
Qed.

Lemma ltb_leb (x y : float) : (x <? y)%float = true -> (x <=? y)%float = true.
Proof.
  rewrite ltb_spec, leb_spec. unfold SFltb, SFleb.
  destruct (SFcompare _ _) as [[]|]; congruence.
Qed.

(** Above a common lower bound no value is a NaN, and the order is total. *)
Lemma leb_of_not_ltb (m x y : float) :
  (m <=? x)%float = true -> (m <=? y)%float = true ->
  (x <? y)%float = false -> (y <=? x)%float = true.
Proof.
  intros Hx%leb_not_nan_r Hy%leb_not_nan_r.
  rewrite ltb_spec, leb_spec. unfold SFltb, SFleb.
  rewrite (SFcompare_antisym (Prim2SF x) (Prim2SF y)).
  pose proof (SFcompare_defined _ _ Hx Hy).
  destruct (SFcompare (Prim2SF x) (Prim2SF y)) as [[]|]; cbn; congruence.
Qed.

End FloatOrder.

(** ** Sorting and slicing *)

Lemma insert_desc_In (x y : string * float) (l : list (string * float)) :
  In y (insert_desc x l) <-> y = x \/ In y l.
Proof.
  induction l as [|z l IH]; simpl.
  - intuition congruence.
  - destruct (snd x <? snd z)%float; simpl; rewrite ?IH; intuition congruence.
Qed.

Lemma sort_desc_In (y : string * float) (l : list (string * float)) :
  In y (sort_desc l) <-> In y l.
Proof.
  induction l as [|x l IH]; simpl; [reflexivity|].
  rewrite insert_desc_In, IH. intuition congruence.
Qed.

Section Sorting.

Variable min_similarity : float.

Local Abbreviation above := (passes min_similarity).

Lemma insert_desc_HdRel (x y : string * float) (l : list (string * float)) :
  descending y x -> HdRel descending y l -> HdRel descending y (insert_desc x l).
Proof.
  intros Hyx Hl. destruct l as [|z l]; simpl; [constructor; exact Hyx|].
  destruct (snd x <? snd z)%float; constructor; [|exact Hyx].
  inversion Hl; assumption.
Qed.

Lemma insert_desc_Sorted (x : string * float) (l : list (string * float)) :
  above x -> Forall above l -> Sorted descending l -> Sorted descending (insert_desc x l).
Proof.
  intros Hx Hall Hs. induction l as [|y l IH]; simpl.
  - repeat constructor.
  - apply Forall_cons_1 in Hall as [Hy Hall]. apply Sorted_inv in Hs as [Hs Hhd].
    destruct (snd x <? snd y)%float eqn:E.
    + constructor; [apply IH; assumption|].
      apply insert_desc_HdRel; [|exact Hhd].
      apply FloatOrder.ltb_leb, E.
    + constructor; [constructor; assumption|]. constructor.
      exact (FloatOrder.leb_of_not_ltb min_similarity _ _ Hx Hy E).
Qed.

Lemma sort_desc_above (l : list (string * float)) :
  Forall above l -> Forall above (sort_desc l).
Proof.
  rewrite !List.Forall_forall. intros H x Hx. apply H, (sort_desc_In x l), Hx.
Qed.

(** Results that pass the threshold come out of the sort in descending
    order. *)
Lemma sort_desc_Sorted (l : list (string * float)) :
  Forall above l -> Sorted descending (sort_desc l).
Proof.
  induction 1 as [|x l Hx Hl IH]; simpl; [constructor|].
  apply insert_desc_Sorted; [exact Hx|apply sort_desc_above, Hl|exact IH].
Qed.

End Sorting.

Lemma Sorted_firstn {A} (R : A -> A -> Prop) (n : nat) (l : list A) :
  Sorted R l -> Sorted R (firstn n l).
Proof.
  revert l. induction n as [|n IH]; intros l Hs; [constructor|].
  destruct l as [|x l]; [constructor|]. apply Sorted_inv in Hs as [Hs Hhd].
  simpl. constructor; [apply IH, Hs|].
  destruct n; [constructor|]. destruct Hhd; constructor. assumption.
Qed.

Lemma In_firstn {A} (x : A) (n : nat) (l : list A) : In x (firstn n l) -> In x l.
Proof.
  revert l. induction n as [|n IH]; intros [|y l]; simpl; try tauto.
  intros [->|H]; [left; reflexivity|right; apply IH, H].
Qed.

Lemma slice_to_In {A} (x : A) (l : list A) (k : Z) : In x (Py.slice_to l k) -> In x l.
Proof. unfold Py.slice_to. destruct (k <? 0); apply In_firstn. Qed.

Lemma slice_to_Sorted {A} (R : A -> A -> Prop) (l : list A) (k : Z) :
  Sorted R l -> Sorted R (Py.slice_to l k).
Proof. unfold Py.slice_to. destruct (k <? 0); apply Sorted_firstn. Qed.

Lemma slice_to_length {A} (l : list A) (k : Z) :
  0 <= k -> Z.of_nat (length (Py.slice_to l k)) <= k.
Proof.
  intros Hk. unfold Py.slice_to. destruct (Z.ltb_spec k 0); [lia|].
  rewrite length_firstn. lia.
Qed.

(** ** The scan of [similarity_search] *)

Lemma bind_Ok {A B} (a : A) (k : A -> Py.result B) : (x ← Py.Ok a; k x) = k a.
Proof. reflexivity. Qed.

Lemma bind_Raise {A B} (e : Py.exn) (k : A -> Py.result B) :
  (x ← Py.Raise e; k x) = Py.Raise e.
Proof. reflexivity. Qed.

Ltac py_run := repeat first [rewrite bind_Ok | rewrite bind_Raise].

Section Scan.

Variables (db : Sqlite.Db) (query : Np.ndarray) (min_similarity : float).

Local Abbreviation query_norm := (Np.linalg_norm query).

Lemma score_row_hit (row : Sqlite.VectorRow) (hit : list (string * float)) (x : string * float) :
  In row (Sqlite.vectors db) ->
  score_row query query_norm min_similarity row = Py.Ok hit -> In x hit ->
  passes min_similarity x /\ scored_from db query x.
Proof.
  intros Hrow. unfold score_row.
  destruct (Np.frombuffer (Sqlite.vector_data row)) as [stored|] eqn:Eb; py_run; [|discriminate].
  destruct (Np.dot query stored) as [d|] eqn:Ed; py_run; [|discriminate].
  destruct (0 <? Np.linalg_norm stored)%float eqn:En; [|intros [= <-] []].
  destruct (min_similarity <=? _)%float eqn:Em; intros [= <-]; [|intros []].
  intros [<-|[]]. split; [exact Em|].
  exists row, stored, d. repeat split; assumption.
Qed.

Lemma scan_hit (rows : list Sqlite.VectorRow) (results : list (string * float)) :
  (forall row, In row rows -> In row (Sqlite.vectors db)) ->
  scan query query_norm min_similarity rows = Py.Ok results ->
  Forall (fun x => passes min_similarity x /\ scored_from db query x) results.
Proof.
  revert results. induction rows as [|row rows IH]; intros results Hsub; simpl.
  - intros [= <-]. constructor.
  - destruct (score_row query query_norm min_similarity row) as [hit|] eqn:Eh; py_run;
      [|discriminate].
    destruct (scan query query_norm min_similarity rows) as [hits|] eqn:Es; py_run;
      [|discriminate].
    intros [= <-]. apply Forall_app. split.
    + apply List.Forall_forall. intros x Hx.
      apply (score_row_hit row hit x); [apply Hsub; left; reflexivity|exact Eh|exact Hx].
    + apply IH; [|reflexivity]. intros r Hr. apply Hsub. right. exact Hr.
Qed.

Lemma score_row_returns (row : Sqlite.VectorRow) :
  length (Sqlite.vector_data row) = (length query * 8)%nat ->
  exists hit, score_row query query_norm min_similarity row = Py.Ok hit.
Proof.
  intros Hlen. unfold score_row, Np.frombuffer.
  rewrite Hlen, Nat.Div0.mod_mul, Nat.div_mul by discriminate.
  change (0 =? 0)%nat with true. cbv iota. py_run.
  unfold Np.dot. rewrite NpFacts.length_chunks, Nat.eqb_refl. py_run.
  destruct (0 <? _)%float; [|eexists; reflexivity].
  destruct (min_similarity <=? _)%float; eexists; reflexivity.
Qed.

Lemma scan_returns (rows : list Sqlite.VectorRow) :
  Forall (fun row => length (Sqlite.vector_data row) = (length query * 8)%nat) rows ->
  exists results, scan query query_norm min_similarity rows = Py.Ok results.
Proof.
  induction 1 as [|row rows Hrow _ [hits IH]]; simpl; [eexists; reflexivity|].
  destruct (score_row_returns row Hrow) as [hit ->]. rewrite IH. py_run.
  eexists; reflexivity.
Qed.

End Scan.

(** ** The vector store *)

Lemma find_app_first {A} (f : A -> bool) (l l' : list A) :
  List.find f (l ++ l') =
  match List.find f l with
  | Some x => Some x
  | None => List.find f l'
  end.
Proof.
  induction l as [|x l IH]; simpl; [reflexivity|].
  destruct (f x); [reflexivity|exact IH].
Qed.

Section Store.

Variables (e : VectorEngine) (db : Sqlite.Db).
Variables (node_id file_path content_hash : string) (embedding : Np.ndarray) (now : Z).

Local Abbreviation db' := (store_embedding e db node_id file_path content_hash embedding now).

Lemma store_embedding_vectors :
  Sqlite.vectors db' =
  (Sqlite.vectors db ++
   [ {| Sqlite.vr_id := Sqlite.vectors_seq db + 1; Sqlite.vr_node_id := node_id;
        Sqlite.vector_data := Np.tobytes embedding;
        Sqlite.vector_norm := Sqlite.bind_double (Np.linalg_norm embedding) |} ])%list.
Proof. reflexivity. Qed.

Lemma store_embedding_metadata :
  Sqlite.vector_metadata db' =
  (List.filter (fun r => negb (String.eqb (Sqlite.md_node_id r) node_id))
     (Sqlite.vector_metadata db) ++
   [ {| Sqlite.md_id := Sqlite.vector_metadata_seq db + 1; Sqlite.md_node_id := node_id;
        Sqlite.md_file_path := file_path; Sqlite.md_content_hash := content_hash;
        Sqlite.md_embedding_model := embedding_model e;
        Sqlite.md_embedding_dim := embedding_dim;
        Sqlite.md_created_at := now; Sqlite.md_updated_at := now |} ])%list.
Proof. reflexivity. Qed.

(** The row read for a node after a store: the one read before when there
    was one, the new row otherwise. *)
Lemma select_after_store (n : string) :
  Sqlite.select_vector_data db' n =
  match Sqlite.select_vector_data db n with
  | Some blob => Some blob
  | None => if String.eqb node_id n then Some (Np.tobytes embedding) else None
  end.
Proof.
  unfold Sqlite.select_vector_data. rewrite store_embedding_vectors, find_app_first.
  destruct (List.find _ (Sqlite.vectors db)); [reflexivity|].
  cbn [List.find Sqlite.vr_node_id]. destruct (String.eqb node_id n); reflexivity.
Qed.

Lemma count_after_store :
  get_stored_embeddings_count db' = get_stored_embeddings_count db + 1.
Proof.
  unfold get_stored_embeddings_count, Sqlite.count_vectors.
  rewrite store_embedding_vectors, length_app. simpl. lia.
Qed.

Lemma metadata_unique_after_store :
  length (List.filter (fun r => String.eqb (Sqlite.md_node_id r) node_id)
            (Sqlite.vector_metadata db')) = 1%nat.
Proof.
  rewrite store_embedding_metadata, List.filter_app, length_app.
  cbn [List.filter Sqlite.md_node_id]. rewrite String.eqb_refl.
  replace (List.filter _ (List.filter _ _)) with (@nil Sqlite.MetadataRow); [reflexivity|].
  symmetry. induction (Sqlite.vector_metadata db) as [|r l IH]; [reflexivity|].
  cbn [List.filter]. destruct (String.eqb (Sqlite.md_node_id r) node_id) eqn:E; cbn [negb].
  - exact IH.
  - cbn [List.filter]. rewrite E. exact IH.
Qed.

End Store.

Lemma get_embedding_absent (db : Sqlite.Db) (n : string) :
  get_embedding db n = Py.Ok None <-> Sqlite.select_vector_data db n = None.
Proof.
  unfold get_embedding. destruct (Sqlite.select_vector_data db n) as [blob|].
  - destruct (Np.frombuffer blob); py_run; split; discriminate.
  - tauto.
Qed.

(** A second store under a node leaves the vector read for it as it was. *)
Lemma store_embedding_keeps_first (e1 e2 : VectorEngine) (db : Sqlite.Db)
    (n f1 h1 f2 h2 : string) (v1 v2 : Np.ndarray) (t1 t2 : Z) :
  let db1 := store_embedding e1 db n f1 h1 v1 t1 in
  let db2 := store_embedding e2 db1 n f2 h2 v2 t2 in
  get_embedding db2 n = get_embedding db1 n /\
  get_stored_embeddings_count db2 = get_stored_embeddings_count db + 2 /\
  (2 <= length (records_of db2 n))%nat.
Proof.
  intros db1 db2. split; [|split].
  - assert (Hsel : Sqlite.select_vector_data db2 n = Sqlite.select_vector_data db1 n).
    { unfold db2. rewrite select_after_store. unfold db1.
      rewrite select_after_store, String.eqb_refl.
      destruct (Sqlite.select_vector_data db n); reflexivity. }
    unfold get_embedding. rewrite Hsel. reflexivity.
  - unfold db2, db1. rewrite !count_after_store. lia.
  - unfold records_of, db2, db1. rewrite !store_embedding_vectors, !List.filter_app, !length_app.
    cbn [List.filter Sqlite.vr_node_id]. rewrite String.eqb_refl. simpl. lia.
Qed.

(** C1, as the code has it: [store_embedding] compares no length. For every
    vector, of the configured dimension or not, the call adds one row to
    [vectors] with the bytes of the vector, and leaves one metadata row for
    the node, which records the configured [embedding_dim]. *)
Theorem store_embedding_any_length (e : VectorEngine) (db : Sqlite.Db)
    (node_id file_path content_hash : string) (embedding : Np.ndarray) (now : Z) :
  let db' := store_embedding e db node_id file_path content_hash embedding now in
  get_stored_embeddings_count db' = get_stored_embeddings_count db + 1 /\
  (exists row, last (Sqlite.vectors db') = Some row /\
               Sqlite.vr_node_id row = node_id /\
               Sqlite.vector_data row = Np.tobytes embedding) /\
  (exists meta,
     List.filter (fun r => String.eqb (Sqlite.md_node_id r) node_id)
       (Sqlite.vector_metadata db') = [meta] /\
     Sqlite.md_embedding_dim meta = embedding_dim).
Proof.
  intros db'. repeat split.
  - apply count_after_store.
  - eexists. unfold db'. rewrite store_embedding_vectors, last_snoc. repeat split.
  - pose proof (metadata_unique_after_store e db node_id file_path content_hash embedding now) as H1.
    fold db' in H1.
    assert (Hall : Forall (fun r => Sqlite.md_embedding_dim r = embedding_dim \/
                            String.eqb (Sqlite.md_node_id r) node_id = false)
                     (Sqlite.vector_metadata db')).
    { unfold db'. rewrite store_embedding_metadata. apply Forall_app. split.
      - apply List.Forall_forall. intros r [_ Hr]%List.filter_In. right.
        destruct (String.eqb _ _); [discriminate|reflexivity].
      - repeat constructor. }
    induction (Sqlite.vector_metadata db') as [|r l IH]; [discriminate|].
    revert H1. apply Forall_cons_1 in Hall as [Hr Hall]. cbn [List.filter].
    destruct (String.eqb (Sqlite.md_node_id r) node_id) eqn:E.
    + destruct (List.filter _ l); [|discriminate]. intros _. exists r. split; [reflexivity|].
      destruct Hr; congruence.
    + intros H1. exact (IH H1 Hall).
Qed.

(** C1, counterexample: a vector of one element, where [embedding_dim] is
    1024, is stored on an empty store and read back; the call did not fail and
    the state of the node changed. *)
Lemma store_embedding_wrong_length_accepted :
  Z.of_nat (length vec1) <> embedding_dim /\
  get_embedding store0 "node" = Py.Ok None /\
  get_embedding (store_embedding engine0 store0 "node" "a.py" "h1" vec1 100) "node"
  = Py.Ok (Some vec1).
Proof. repeat split. vm_compute. discriminate. Qed.

(** C2, at the failing input: two stores under one node leave two rows in
    [vectors] (and one in [vector_metadata]), and the vector read back is the
    first one. *)
Theorem store_twice_reads_first :
  get_embedding store2 "node" = Py.Ok (Some vec1) /\
  vec1 <> vec2 /\
  length (records_of store2 "node") = 2%nat /\
  get_stored_embeddings_count store2 = 2 /\
  length (Sqlite.vector_metadata store2) = 1%nat.
Proof. repeat split. vm_compute. discriminate. Qed.

(** C6: a vector stored under a node that has no record is read back
    unchanged, bit for bit. *)
Theorem store_get_roundtrip (e : VectorEngine) (db : Sqlite.Db)
    (node_id file_path content_hash : string) (embedding : Np.ndarray) (now : Z) :
  Np.well_formed embedding ->
  get_embedding db node_id = Py.Ok None ->
  get_embedding (store_embedding e db node_id file_path content_hash embedding now) node_id
  = Py.Ok (Some embedding).
Proof.
  intros Hwf Habs%get_embedding_absent. unfold get_embedding.
  rewrite select_after_store, Habs, String.eqb_refl, NpFacts.frombuffer_tobytes by exact Hwf.
  reflexivity.
Qed.

Lemma store_get_roundtrip_witness :
  Np.well_formed vec2 /\
  get_embedding (clear_embeddings store3) "node" = Py.Ok None /\
  get_embedding (store_embedding engine0 (clear_embeddings store3) "node" "a.py" "h" vec2 7) "node"
  = Py.Ok (Some vec2).
Proof.
  assert (Hwf : Np.well_formed vec2)
    by (constructor; [vm_compute; split; congruence|constructor]).
  split; [exact Hwf|]. split; [reflexivity|].
  apply (store_get_roundtrip engine0 (clear_embeddings store3) "node" "a.py" "h" vec2 7 Hwf).
  reflexivity.
Defined.

(** C9: after [clear_embeddings] the count is zero and no node has a
    vector. *)
Theorem clear_embeddings_total (db : Sqlite.Db) (node_id : string) :
  get_stored_embeddings_count (clear_embeddings db) = 0 /\
  get_embedding (clear_embeddings db) node_id = Py.Ok None.
Proof. split; reflexivity. Qed.

Lemma reachable_metadata (db : Sqlite.Db) :
  reachable db -> Sqlite.vectors db = [] -> Sqlite.vector_metadata db = [].
Proof.
  induction 1 as [|e db n f h v t _ _|db _ _]; [reflexivity| |reflexivity].
  rewrite store_embedding_vectors. intros H. apply app_eq_nil in H as [_ H]. discriminate.
Qed.

(** C10: on a store without records the statistics are a zero total, an
    empty map of models and the average 0.0. *)
Theorem get_embedding_stats_empty (db : Sqlite.Db) :
  reachable db -> get_stored_embeddings_count db = 0 -> get_embedding_stats db = no_stats.
Proof.
  intros Hr Hc.
  assert (Hv : Sqlite.vectors db = []).
  { unfold get_stored_embeddings_count, Sqlite.count_vectors in Hc.
    destruct (Sqlite.vectors db); [reflexivity|simpl in Hc; lia]. }
  pose proof (reachable_metadata db Hr Hv) as Hm.
  unfold get_embedding_stats, Sqlite.count_by_model, Sqlite.count_vectors, Sqlite.avg_vector_norm.
  rewrite Hv, Hm. reflexivity.
Qed.

Lemma get_embedding_stats_empty_witness :
  reachable (clear_embeddings store2) /\
  get_stored_embeddings_count (clear_embeddings store2) = 0 /\
  get_embedding_stats (clear_embeddings store2) = no_stats.
Proof.
  assert (Hr : reachable (clear_embeddings store2)) by (repeat constructor).
  split; [exact Hr|]. split; [reflexivity|].
  apply (get_embedding_stats_empty (clear_embeddings store2) Hr). reflexivity.
Defined.

(** ** Similarity search *)

(** C4, as the code has it: for a limit [top_k] that is not negative (a
    negative one is a slice stop counted from the end), the search returns a
    list whenever the stored vectors have the shape of the query, and every
    list it returns holds only scores [dot / (|query| * |stored|)] of stored
    rows of positive norm, none below [min_similarity], in descending order,
    [top_k] at most. *)
Theorem similarity_search_contract (db : Sqlite.Db) (query : Np.ndarray) (top_k : Z)
    (min_similarity : float) :
  0 <= top_k -> search_contract db query top_k min_similarity.
Proof.
  intros Hk. unfold search_contract, similarity_search. split.
  - intros Hal. destruct (Np.linalg_norm query =? 0)%float; [eexists; reflexivity|].
    destruct (scan_returns query min_similarity _ Hal) as [results ->]. py_run.
    eexists; reflexivity.
  - intros results. destruct (Np.linalg_norm query =? 0)%float.
    { intros [= <-]. repeat split; [constructor|constructor|simpl; lia|intros ? _ []]. }
    destruct (scan _ _ _ _) as [hits|] eqn:Es; py_run; [|discriminate].
    intros [= <-].
    pose proof (scan_hit db query min_similarity _ hits (fun _ H => H) Es) as Hhits.
    assert (Hres : Forall (fun hit => passes min_similarity hit /\ scored_from db query hit)
                     (Py.slice_to (sort_desc hits) top_k)).
    { rewrite List.Forall_forall in Hhits |- *. intros x Hx.
      apply Hhits, (sort_desc_In x hits), (slice_to_In x _ top_k), Hx. }
    split; [exact Hres|]. split; [|split].
    + apply slice_to_Sorted, (sort_desc_Sorted min_similarity).
      eapply List.Forall_impl; [|exact Hhits]. intros x [Hx _]. exact Hx.
    + apply slice_to_length, Hk.
    + intros node_id Hzero Hin. apply in_map_iff in Hin as [hit [Hfst Hin]].
      rewrite List.Forall_forall in Hres.
      destruct (Hres hit Hin) as [_ (row & stored & d & Hrow & Hid & Hbuf & _ & Hpos & _)].
      rewrite (Hzero row stored Hrow (eq_trans Hid Hfst) Hbuf) in Hpos. discriminate.
Qed.

Lemma similarity_search_contract_witness :
  0 <= 2 /\
  search_contract store3 [f64 1%float; f64 0%float] 2 0.5%float /\
  similarity_search store3 [f64 1%float; f64 0%float] 2 0.5%float
  = Py.Ok [("A", 1%float); ("B", (1 / sqrt 2)%float)].
Proof.
  split; [lia|]. split; [|vm_compute; reflexivity].
  apply (similarity_search_contract store3 [f64 1%float; f64 0%float] 2 0.5%float). lia.
Defined.

(** C4, counterexample: with [top_k = -1] and two stored vectors that match
    the query, the search returns one result, which is more than [top_k]. *)
Lemma similarity_search_negative_top_k :
  let db := store_embedding engine0
              (store_embedding engine0 store0 "a" "a.py" "ha" vec1 1)
              "b" "b.py" "hb" vec1 2 in
  (Np.linalg_norm vec1 =? 0)%float = false /\
  similarity_search db vec1 (-1) 0.5%float = Py.Ok [("a", 1%float)] /\
  ~ (Z.of_nat (length [("a", 1%float)]) <= -1).
Proof. intros db. split; [reflexivity|]. split; [vm_compute; reflexivity|simpl; lia]. Qed.

(** In particular an array of zeros, of any length, has no result. *)
Lemma similarity_search_zeros (db : Sqlite.Db) (n : nat) (top_k : Z) (min_similarity : float) :
  similarity_search db (repeat 0 n) top_k min_similarity = Py.Ok [].
Proof.
  unfold similarity_search, Np.linalg_norm, Np.norm_values, Np.values.
  rewrite map_repeat. change (Np.f64_val 0) with 0%float.
  rewrite NpFacts.dot_from_zeros. reflexivity.
Qed.

(** C5: a query of zero norm has no result, whatever the store holds. *)
Theorem similarity_search_zero_query (db : Sqlite.Db) (query : Np.ndarray) (top_k : Z)
    (min_similarity : float) :
  (Np.linalg_norm query =? 0)%float = true ->
  similarity_search db query top_k min_similarity = Py.Ok [].
Proof. intros H. unfold similarity_search. rewrite H. reflexivity. Qed.

Lemma similarity_search_zero_query_witness :
  (Np.linalg_norm [f64 0%float; f64 0%float] =? 0)%float = true /\
  similarity_search store3 [f64 0%float; f64 0%float] 5 0.5%float = Py.Ok [].
Proof.
  split; [reflexivity|].
  apply (similarity_search_zero_query store3 [f64 0%float; f64 0%float] 5 0.5%float).
  reflexivity.
Defined.

(** ** Embedding generation and the cache *)

Section GeneratorFacts.

Variable md5_int : string -> Z.
Variable sha256_hexdigest : string -> string.

Lemma simple_tfidf_embedding_redis (e : VectorEngine) (text : string) (noise : list float) :
  redis_client (snd (simple_tfidf_embedding md5_int e text noise)) = redis_client e.
Proof. reflexivity. Qed.

Lemma generate_embedding_redis (e : VectorEngine) (text : string) (noise : list float) :
  redis_client (snd (generate_embedding md5_int e text noise)) = redis_client e.
Proof.
  unfold generate_embedding, transformer_embedding.
  destruct (String.eqb _ _); [reflexivity|].
  destruct (startswith _ _); [|reflexivity].
  destruct (transformer_model e) as [model|]; [|reflexivity].
  destruct (encode model text); reflexivity.
Qed.

(** No cache operation raises, whatever the server does. *)
Lemma cache_operations_return (e : VectorEngine) (text : string) (embedding : Np.ndarray) :
  (exists cached, get_cached_embedding sha256_hexdigest e text = Py.Ok cached) /\
  fst (cache_embedding sha256_hexdigest e text embedding) = Py.Ok tt.
Proof.
  unfold get_cached_embedding, cache_embedding. destruct (redis_client e) as [client|].
  - split.
    + destruct (redis_get client _) as [[data|]|]; py_run; cbn [Py.try_except];
        try (eexists; reflexivity).
      destruct (nonempty data); [|eexists; reflexivity].
      destruct (Np.frombuffer data); py_run; eexists; reflexivity.
    + destruct (redis_setex client _ _ _); reflexivity.
  - split; [eexists|]; reflexivity.
Qed.

Lemma get_cached_embedding_unavailable (e : VectorEngine) (text : string) :
  cache_unavailable e -> get_cached_embedding sha256_hexdigest e text = Py.Ok None.
Proof.
  unfold cache_unavailable, get_cached_embedding.
  destruct (redis_client e) as [client|]; [|reflexivity].
  intros H. destruct (H (_get_embedding_cache_key sha256_hexdigest e text)) as [ex ->].
  reflexivity.
Qed.

(** C7: without a usable cache, [generate_embedding_cached] returns the
    embedding of [generate_embedding] and leaves the engine with the same
    vocabulary; the lookup answers "absent" and the write returns, neither
    raises. *)
Theorem generate_embedding_cached_bypass (e : VectorEngine) (text : string)
    (noise : list float) :
  cache_unavailable e ->
  get_cached_embedding sha256_hexdigest e text = Py.Ok None /\
  (forall embedding, fst (cache_embedding sha256_hexdigest e text embedding) = Py.Ok tt) /\
  fst (generate_embedding_cached md5_int sha256_hexdigest e text noise)
  = Py.Ok (fst (generate_embedding md5_int e text noise)) /\
  vocabulary (snd (generate_embedding_cached md5_int sha256_hexdigest e text noise))
  = vocabulary (snd (generate_embedding md5_int e text noise)).
Proof.
  intros Hdown. pose proof (get_cached_embedding_unavailable e text Hdown) as Hget.
  split; [exact Hget|]. split; [intros v; apply cache_operations_return|].
  unfold generate_embedding_cached. rewrite Hget.
  destruct (generate_embedding md5_int e text noise) as [embedding e1] eqn:Eg.
  pose proof (cache_operations_return e1 text embedding) as [_ Hput].
  destruct (cache_embedding sha256_hexdigest e1 text embedding) as [stored e2] eqn:Ec.
  cbn [fst] in Hput. subst stored. cbn [fst snd]. split; [reflexivity|].
  revert Ec. unfold cache_embedding. destruct (redis_client e1) as [client|].
  - destruct (redis_setex client _ _ _); intros [= <-]; reflexivity.
  - intros [= <-]. reflexivity.
Qed.

(** C8: the vector of the fallback generator is a function of the text and
    of the noise; the engine it runs in, and so the vocabulary accumulated
    by earlier calls, has no part in it. The same holds for
    [generate_embedding], on each of its paths to the fallback. *)
Theorem simple_tfidf_embedding_vocabulary_free (e1 e2 : VectorEngine) (text : string)
    (noise : list float) (vocab : gmap string nat) :
  fst (simple_tfidf_embedding md5_int e1 text noise)
  = fst (simple_tfidf_embedding md5_int e2 text noise) /\
  fst (generate_embedding md5_int (set_vocabulary e1 vocab) text noise)
  = fst (generate_embedding md5_int e1 text noise).
Proof.
  split; [reflexivity|].
  unfold generate_embedding, transformer_embedding.
  cbn [set_vocabulary embedding_model transformer_model].
  destruct (String.eqb _ _); [reflexivity|].
  destruct (startswith _ _); [|reflexivity].
  destruct (transformer_model e1) as [model|]; [|reflexivity].
  destruct (encode model text); reflexivity.
Qed.

(** The vector returned for any text: the term frequencies scattered by the
    hash, plus the noise, divided by the norm of the sum when it is
    positive. *)
Lemma simple_tfidf_embedding_value (e : VectorEngine) (text : string) (noise : list float) :
  let v := Np.add (tf_vector_of md5_int (tokenize text)) noise in
  fst (simple_tfidf_embedding md5_int e text noise)
  = Np.array (if (0 <? Np.norm_values v)%float then Np.div_scalar v (Np.norm_values v) else v).
Proof. reflexivity. Qed.

(** The vocabulary after a call holds every token of the text. *)
Lemma learn_keeps (vocab : gmap string nat) (w w' : string) :
  is_Some (vocab !! w) -> is_Some (learn vocab w' !! w).
Proof.
  intros H. unfold learn. destruct (vocab !! w') eqn:E; [exact H|].
  destruct (decide (w' = w)) as [->|Hne].
  - rewrite lookup_insert_eq. eauto.
  - rewrite lookup_insert_ne by exact Hne. exact H.
Qed.

Lemma learn_all_keeps (words : list string) (vocab : gmap string nat) (w : string) :
  is_Some (vocab !! w) -> is_Some (fold_left learn words vocab !! w).
Proof.
  revert vocab. induction words as [|w' words IH]; intros vocab H; [exact H|].
  apply IH, learn_keeps, H.
Qed.

Lemma simple_tfidf_embedding_learns (e : VectorEngine) (text : string) (noise : list float)
    (w : string) :
  In w (tokenize text) ->
  is_Some (vocabulary (snd (simple_tfidf_embedding md5_int e text noise)) !! w).
Proof.
  unfold simple_tfidf_embedding. cbn [snd set_vocabulary vocabulary].
  generalize (vocabulary e). induction (tokenize text) as [|w' words IH]; intros vocab; [intros []|].
  intros [->|Hin]; [|apply IH, Hin].
  cbn [fold_left]. apply learn_all_keeps. unfold learn.
  destruct (vocab !! w) eqn:E; [rewrite E; eauto|rewrite lookup_insert_eq; eauto].
Qed.

(** The noise is added to every vector, so for a text without tokens the
    result is the noise, divided by its norm when that norm is positive; it
    is the all-zero vector when the noise drawn is all zero. *)
Lemma simple_tfidf_embedding_no_tokens (e : VectorEngine) (text : string)
    (noise : list float) :
  tokenize text = [] ->
  fst (simple_tfidf_embedding md5_int e text noise)
  = Np.array (normalize (Np.add (Np.zeros embedding_dim) noise)) /\
  (noise = Np.zeros embedding_dim ->
   all_zero (fst (simple_tfidf_embedding md5_int e text noise)) = true).
Proof.
  intros Hw.
  assert (H : fst (simple_tfidf_embedding md5_int e text noise)
              = Np.array (normalize (Np.add (Np.zeros embedding_dim) noise))).
  { unfold simple_tfidf_embedding. rewrite Hw. reflexivity. }
  split; [exact H|]. intros ->. rewrite H. vm_compute. reflexivity.
Qed.

End GeneratorFacts.

Lemma generate_embedding_cached_bypass_witness :
  cache_unavailable engine_failing_cache /\
  fst (generate_embedding_cached sample_md5 sample_sha256 engine_failing_cache
         "vector search" (Np.zeros embedding_dim))
  = Py.Ok (fst (generate_embedding sample_md5 engine_failing_cache
                  "vector search" (Np.zeros embedding_dim))).
Proof.
  assert (H : cache_unavailable engine_failing_cache)
    by (intros key; exists Py.ConnectionError; reflexivity).
  split; [exact H|].
  apply (generate_embedding_cached_bypass sample_md5 sample_sha256 engine_failing_cache
           "vector search" (Np.zeros embedding_dim) H).
Defined.

Lemma simple_tfidf_embedding_no_tokens_witness :
  tokenize "an ox" = [] /\
  all_zero (fst (simple_tfidf_embedding sample_md5 engine0 "an ox" (Np.zeros embedding_dim)))
  = true.
Proof.
  split; [reflexivity|].
  apply (simple_tfidf_embedding_no_tokens sample_md5 engine0 "an ox" (Np.zeros embedding_dim));
    reflexivity.
Defined.

(** C3, counterexample: every word of "an ox" is filtered out, each element
    of the noise drawn is 1/128, and the vector returned is the noise divided
    by its norm 1/4, not the all-zero vector. *)
Lemma simple_tfidf_embedding_noise_remains :
  let noise := repeat 0.0078125%float (Z.to_nat embedding_dim) in
  tokenize "an ox" = [] /\
  all_zero (fst (simple_tfidf_embedding sample_md5 engine0 "an ox" noise)) = false /\
  Np.values (fst (simple_tfidf_embedding sample_md5 engine0 "an ox" noise))
  = repeat 0.03125%float (Z.to_nat embedding_dim).
Proof. intros noise. split; [reflexivity|]. split; vm_compute; reflexivity. Qed.

(** * Further properties *)

(** ** Decoding stored bytes *)

Lemma chunks_bytes (n : nat) (b : Np.bytes) :
  length b = (n * 8)%nat -> Np.tobytes (Np.chunks n b) = b /\ Np.well_formed (Np.chunks n b).
Proof.
  revert b. induction n as [|n IH]; intros b Hlen.
  - destruct b; [split; [reflexivity|constructor]|discriminate].
  - assert (H8 : length (firstn 8 b) = 8%nat) by (rewrite length_firstn; lia).
    destruct (IH (skipn 8 b)) as [Hb Hwf]; [rewrite length_skipn; lia|].
    cbn [Np.chunks]. split.
    + rewrite NpFacts.tobytes_cons, Hb, (split_le_combine' _ 8 H8). apply firstn_skipn.
    + constructor; [|exact Hwf]. unfold Np.is_float64.
      pose proof (le_combine_bound (firstn 8 b)) as Hbound. rewrite H8 in Hbound. exact Hbound.
Qed.

Lemma frombuffer_bytes (b : Np.bytes) (a : Np.ndarray) :
  Np.frombuffer b = Py.Ok a -> Np.tobytes a = b /\ Np.well_formed a.
Proof.
  intros H. pose proof (NpFacts.frombuffer_length b a H) as Hlen. revert H.
  unfold Np.frombuffer. destruct (length b mod 8 =? 0)%nat; [|discriminate].
  intros Heq. assert (a = Np.chunks (length b / 8) b) as Ha by congruence.
  rewrite Ha in Hlen |- *. rewrite NpFacts.length_chunks in Hlen.
  apply chunks_bytes, Hlen.
Qed.

Lemma frombuffer_raises (b : Np.bytes) :
  (length b mod 8)%nat <> 0%nat <-> Np.frombuffer b = Py.Raise Py.ValueError.
Proof.
  unfold Np.frombuffer. destruct (Nat.eqb_spec (length b mod 8) 0) as [E|E].
  - split; [tauto|discriminate].
  - split; [reflexivity|intros _; exact E].
Qed.

(** X1: what [get_embedding] returns is what the store holds: the array is
    a float64 array whose bytes are the [vector_data] of a row of the node. *)
Theorem get_embedding_returns_stored_bytes (db : Sqlite.Db) (node_id : string) (a : Np.ndarray) :
  get_embedding db node_id = Py.Ok (Some a) ->
  Np.well_formed a /\
  exists row, In row (Sqlite.vectors db) /\ Sqlite.vr_node_id row = node_id /\
              Sqlite.vector_data row = Np.tobytes a.
Proof.
  unfold get_embedding, Sqlite.select_vector_data.
  destruct (List.find _ (Sqlite.vectors db)) as [row|] eqn:Ef; cbn [fmap option_fmap option_map];
    [|discriminate].
  destruct (Np.frombuffer (Sqlite.vector_data row)) as [a'|] eqn:Eb; py_run; [|discriminate].
  intros Heq. assert (a' = a) as -> by congruence.
  destruct (frombuffer_bytes _ _ Eb) as [Hb Hwf]. split; [exact Hwf|].
  apply List.find_some in Ef as [Hin Hn]. exists row. repeat split; [exact Hin| |congruence].
  apply String.eqb_eq, Hn.
Qed.

Lemma get_embedding_returns_stored_bytes_witness :
  get_embedding store3 "B" = Py.Ok (Some [f64 1%float; f64 1%float]) /\
  Np.well_formed [f64 1%float; f64 1%float].
Proof.
  assert (H : get_embedding store3 "B" = Py.Ok (Some [f64 1%float; f64 1%float])) by reflexivity.
  split; [exact H|].
  exact (proj1 (get_embedding_returns_stored_bytes store3 "B" _ H)).
Defined.

(** ** Runs of [store_embedding] *)

Lemma get_embedding_after_store (e : VectorEngine) (db : Sqlite.Db)
    (node_id file_path content_hash : string) (embedding : Np.ndarray) (now : Z) (n : string) :
  get_embedding db n <> Py.Ok None \/ n <> node_id ->
  get_embedding (store_embedding e db node_id file_path content_hash embedding now) n
  = get_embedding db n.
Proof.
  intros H. unfold get_embedding. rewrite select_after_store.
  destruct (Sqlite.select_vector_data db n) as [blob|] eqn:Es; [reflexivity|].
  destruct H as [H|H].
  - exfalso. apply H. apply get_embedding_absent, Es.
  - destruct (String.eqb_spec node_id n); [congruence|reflexivity].
Qed.

Lemma store_all_cons (e : VectorEngine) (db : Sqlite.Db) (c : StoreCall) (calls : list StoreCall) :
  store_all e db (c :: calls)
  = store_all e
      (let '(node_id, file_path, content_hash, embedding, now) := c in
       store_embedding e db node_id file_path content_hash embedding now) calls.
Proof. reflexivity. Qed.

(** X2: a run of stores changes what [get_embedding] returns for a node only
    when the node had no record and is written by the run: the vector read
    for a node that has a record is kept by every later store, also by
    stores under that node. *)
Theorem store_all_keeps_vectors (e : VectorEngine) (db : Sqlite.Db) (calls : list StoreCall)
    (n : string) :
  get_embedding db n <> Py.Ok None \/ ~ In n (map call_node calls) ->
  get_embedding (store_all e db calls) n = get_embedding db n.
Proof.
  revert db. induction calls as [|[[[[node f] h] v] t] calls IH]; intros db H; [reflexivity|].
  rewrite store_all_cons.
  assert (Hstep : get_embedding (store_embedding e db node f h v t) n = get_embedding db n).
  { apply get_embedding_after_store. destruct H as [H|H]; [left; exact H|right].
    intros ->. apply H. left. reflexivity. }
  rewrite IH; [exact Hstep|].
  destruct H as [H|H]; [left; rewrite Hstep; exact H|right].
  intros Hin. apply H. right. exact Hin.
Qed.

Lemma store_all_keeps_vectors_witness :
  get_embedding (store_embedding engine0 store0 "node" "a.py" "h1" vec1 100) "node"
    <> Py.Ok None /\
  get_embedding
    (store_all engine0 (store_embedding engine0 store0 "node" "a.py" "h1" vec1 100)
       [("node", "a.py", "h2", vec2, 200); ("other", "b.py", "h3", vec2, 300)]) "node"
  = Py.Ok (Some vec1).
Proof.
  assert (H : get_embedding (store_embedding engine0 store0 "node" "a.py" "h1" vec1 100) "node"
              <> Py.Ok None) by (vm_compute; discriminate).
  split; [exact H|].
  rewrite (store_all_keeps_vectors engine0 _
             [("node", "a.py", "h2", vec2, 200); ("other", "b.py", "h3", vec2, 300)] "node"
             (or_introl H)).
  reflexivity.
Defined.

(** X3: the metadata of a node is replaced by a store: one row, with the
    path, hash, model, dimension and time of the call; the metadata rows of
    the other nodes stay as they are. *)
Theorem store_embedding_metadata_upsert (e : VectorEngine) (db : Sqlite.Db)
    (node_id file_path content_hash : string) (embedding : Np.ndarray) (now : Z) :
  let db' := store_embedding e db node_id file_path content_hash embedding now in
  metadata_of db' node_id =
    [ {| Sqlite.md_id := Sqlite.vector_metadata_seq db + 1; Sqlite.md_node_id := node_id;
         Sqlite.md_file_path := file_path; Sqlite.md_content_hash := content_hash;
         Sqlite.md_embedding_model := embedding_model e;
         Sqlite.md_embedding_dim := embedding_dim;
         Sqlite.md_created_at := now; Sqlite.md_updated_at := now |} ] /\
  forall n, n <> node_id -> metadata_of db' n = metadata_of db n.
Proof.
  intros db'. split; [|intros n Hn]; unfold metadata_of, db';
    rewrite store_embedding_metadata, List.filter_app; cbn [List.filter Sqlite.md_node_id].
  - rewrite String.eqb_refl.
    replace (List.filter _ (List.filter _ _)) with (@nil Sqlite.MetadataRow); [reflexivity|].
    symmetry. induction (Sqlite.vector_metadata db) as [|r l IH]; [reflexivity|].
    cbn [List.filter]. destruct (String.eqb (Sqlite.md_node_id r) node_id) eqn:E; cbn [negb].
    + exact IH.
    + cbn [List.filter]. rewrite E. exact IH.
  - destruct (String.eqb_spec node_id n) as [->|_]; [congruence|].
    rewrite app_nil_r.
    induction (Sqlite.vector_metadata db) as [|r l IH]; [reflexivity|].
    cbn [List.filter]. destruct (String.eqb_spec (Sqlite.md_node_id r) node_id) as [E|E]; cbn [negb].
    + destruct (String.eqb_spec (Sqlite.md_node_id r) n) as [E'|_]; [congruence|exact IH].
    + cbn [List.filter]. rewrite IH. reflexivity.
Qed.

(** ** The two tables of a store *)

Lemma metadata_nodes_store (e : VectorEngine) (db : Sqlite.Db)
    (node_id file_path content_hash : string) (embedding : Np.ndarray) (now : Z) :
  metadata_nodes (store_embedding e db node_id file_path content_hash embedding now)
  = (List.filter (fun n => negb (String.eqb n node_id)) (metadata_nodes db) ++ [node_id])%list.
Proof.
  unfold metadata_nodes. rewrite store_embedding_metadata, map_app. cbn [map Sqlite.md_node_id].
  f_equal. induction (Sqlite.vector_metadata db) as [|r l IH]; [reflexivity|].
  cbn [List.filter map]. destruct (negb _); cbn [map]; rewrite IH; reflexivity.
Qed.

Lemma vector_nodes_store (e : VectorEngine) (db : Sqlite.Db)
    (node_id file_path content_hash : string) (embedding : Np.ndarray) (now : Z) :
  vector_nodes (store_embedding e db node_id file_path content_hash embedding now)
  = (vector_nodes db ++ [node_id])%list.
Proof. unfold vector_nodes. rewrite store_embedding_vectors, map_app. reflexivity. Qed.

Lemma In_filter_other (n node_id : string) (l : list string) :
  In n (List.filter (fun m => negb (String.eqb m node_id)) l) <-> In n l /\ n <> node_id.
Proof.
  rewrite List.filter_In. destruct (String.eqb_spec n node_id); cbn [negb]; intuition congruence.
Qed.

Lemma length_tobytes_mod (a : Np.ndarray) : (length (Np.tobytes a) mod 8)%nat = 0%nat.
Proof. rewrite NpFacts.length_tobytes. apply Nat.Div0.mod_mul. Qed.

Lemma consistent_store (e : VectorEngine) (db : Sqlite.Db)
    (node_id file_path content_hash : string) (embedding : Np.ndarray) (now : Z) :
  consistent db ->
  consistent (store_embedding e db node_id file_path content_hash embedding now).
Proof.
  intros (Hnd & Hsame & Hlen). unfold consistent.
  rewrite metadata_nodes_store, vector_nodes_store, store_embedding_vectors. repeat split.
  - apply List.NoDup_app.
    + apply List.NoDup_filter, Hnd.
    + constructor; [intros []|constructor].
    + intros x Hx Hx'. apply In_filter_other in Hx as [_ Hx]. destruct Hx' as [->|[]]. congruence.
  - rewrite !in_app_iff, In_filter_other. cbn [In]. rewrite <- Hsame. tauto.
  - rewrite !in_app_iff, In_filter_other. cbn [In]. rewrite <- Hsame.
    destruct (String.eqb_spec n node_id); intuition congruence.
  - apply Forall_app. split; [exact Hlen|]. repeat constructor.
    cbn [Sqlite.vector_data]. apply length_tobytes_mod.
Qed.

Lemma consistent_clear (db : Sqlite.Db) : consistent (clear_embeddings db).
Proof. repeat split; try constructor; intros []. Qed.

Lemma consistent_store_all (e : VectorEngine) (calls : list StoreCall) (db : Sqlite.Db) :
  consistent db -> consistent (store_all e db calls).
Proof.
  revert db. induction calls as [|[[[[node f] h] v] t] calls IH]; intros db H; [exact H|].
  rewrite store_all_cons. apply IH, consistent_store, H.
Qed.

Lemma reachable_consistent (db : Sqlite.Db) : reachable db -> consistent db.
Proof.
  induction 1 as [|e db n f h v t _ IH|db _ _].
  - repeat split; try constructor; intros [].
  - apply consistent_store, IH.
  - apply consistent_clear.
Qed.

Lemma consistent_rows (db : Sqlite.Db) :
  consistent db ->
  length (Sqlite.vector_metadata db) = length (nodup string_dec (vector_nodes db)).
Proof.
  intros (Hnd & Hsame & _).
  rewrite <- (length_map Sqlite.md_node_id). fold (metadata_nodes db).
  apply Permutation_length, Permutation.NoDup_Permutation; [exact Hnd|apply List.NoDup_nodup|].
  intros n. rewrite List.nodup_In. apply Hsame.
Qed.

Lemma select_absent (db : Sqlite.Db) (n : string) :
  Sqlite.select_vector_data db n = None <-> ~ In n (vector_nodes db).
Proof.
  unfold Sqlite.select_vector_data, vector_nodes.
  induction (Sqlite.vectors db) as [|r l IH]; cbn [List.find map In].
  - split; [tauto|reflexivity].
  - destruct (String.eqb_spec (Sqlite.vr_node_id r) n) as [E|E]; cbn [fmap option_fmap option_map].
    + split; [discriminate|]. intros H. exfalso. apply H. left. exact E.
    + rewrite IH. tauto.
Qed.

(** X4: in every store that calls of the engine build, the metadata holds
    exactly one row for each node that has vector rows, and none for any
    other node; so it has as many rows as there are distinct nodes, which is
    at most the count of vectors. *)
Theorem reachable_tables_agree (db : Sqlite.Db) :
  reachable db ->
  List.NoDup (metadata_nodes db) /\
  (forall n, In n (metadata_nodes db) <-> In n (vector_nodes db)) /\
  length (Sqlite.vector_metadata db) = length (nodup string_dec (vector_nodes db)) /\
  Z.of_nat (length (Sqlite.vector_metadata db)) <= get_stored_embeddings_count db.
Proof.
  intros Hc%reachable_consistent. pose proof (consistent_rows db Hc) as Hrows.
  destruct Hc as (Hnd & Hsame & _). repeat split; try assumption; try apply Hsame.
  unfold get_stored_embeddings_count, Sqlite.count_vectors. rewrite Hrows.
  apply inj_le. rewrite <- (length_map Sqlite.vr_node_id (Sqlite.vectors db)).
  apply NoDup_incl_length; [apply List.NoDup_nodup|].
  intros n Hn%List.nodup_In. exact Hn.
Qed.

Lemma reachable_tables_agree_witness :
  reachable store2 /\
  length (Sqlite.vector_metadata store2) = length (nodup string_dec (vector_nodes store2)).
Proof.
  assert (H : reachable store2) by (repeat constructor).
  split; [exact H|]. exact (proj1 (proj2 (proj2 (reachable_tables_agree store2 H)))).
Defined.

(** X5: on every store that calls of the engine build, [get_embedding]
    returns [None] exactly for the nodes that have no metadata row: the
    table it reads and the metadata know the same nodes. *)
Theorem reachable_get_embedding_none_iff (db : Sqlite.Db) (n : string) :
  reachable db ->
  (get_embedding db n = Py.Ok None <-> ~ In n (metadata_nodes db)).
Proof.
  intros (_ & Hsame & _)%reachable_consistent.
  rewrite get_embedding_absent, select_absent, Hsame. reflexivity.
Qed.

Lemma reachable_get_embedding_none_iff_witness :
  reachable store3 /\
  get_embedding store3 "missing" = Py.Ok None /\
  get_embedding store3 "B" <> Py.Ok None.
Proof.
  assert (H : reachable store3) by (repeat constructor).
  split; [exact H|]. split.
  - apply (reachable_get_embedding_none_iff store3 "missing" H).
    cbv. intros [E|[E|[E|[]]]]; discriminate E.
  - intros E. apply (reachable_get_embedding_none_iff store3 "B" H) in E.
    apply E. cbv. right. left. reflexivity.
Defined.

Lemma count_store_all (e : VectorEngine) (calls : list StoreCall) (db : Sqlite.Db) :
  get_stored_embeddings_count (store_all e db calls)
  = get_stored_embeddings_count db + Z.of_nat (length calls).
Proof.
  revert db. induction calls as [|[[[[node f] h] v] t] calls IH]; intros db.
  - cbn [store_all fold_left length]. lia.
  - rewrite store_all_cons, IH, count_after_store. cbn [length]. lia.
Qed.

Lemma vector_nodes_store_all (e : VectorEngine) (calls : list StoreCall) (db : Sqlite.Db) :
  vector_nodes (store_all e db calls) = (vector_nodes db ++ map call_node calls)%list.
Proof.
  revert db. induction calls as [|[[[[node f] h] v] t] calls IH]; intros db.
  - cbn [store_all fold_left map]. rewrite app_nil_r. reflexivity.
  - rewrite store_all_cons, IH, vector_nodes_store, <- app_assoc. reflexivity.
Qed.

(** X6: the count is the number of stores, not of nodes: after
    [clear_embeddings] and a run of stores, [get_stored_embeddings_count] is
    the length of the run, while the metadata holds one row for each
    distinct node of the run. *)
Theorem count_counts_stores (e : VectorEngine) (db : Sqlite.Db) (calls : list StoreCall) :
  let db' := store_all e (clear_embeddings db) calls in
  get_stored_embeddings_count db' = Z.of_nat (length calls) /\
  length (Sqlite.vector_metadata db') = length (nodup string_dec (map call_node calls)).
Proof.
  intros db'. split.
  - unfold db'. rewrite count_store_all. reflexivity.
  - unfold db'. rewrite (consistent_rows _ (consistent_store_all e calls _ (consistent_clear db))).
    rewrite vector_nodes_store_all. reflexivity.
Qed.

(** ** When the search fails, and what it finds *)

Section ScanFacts.

Variables (query : Np.ndarray) (min_similarity : float).

Local Abbreviation query_norm := (Np.linalg_norm query).
Local Abbreviation shaped :=
  (fun row : Sqlite.VectorRow => length (Sqlite.vector_data row) = (length query * 8)%nat).

Lemma score_row_shaped (row : Sqlite.VectorRow) (hit : list (string * float)) :
  score_row query query_norm min_similarity row = Py.Ok hit -> shaped row.
Proof.
  unfold score_row.
  destruct (Np.frombuffer (Sqlite.vector_data row)) as [stored|] eqn:Eb; py_run; [|discriminate].
  unfold Np.dot. destruct (Nat.eqb_spec (length query) (length stored)) as [E|E]; py_run;
    [|discriminate].
  intros _. rewrite E. apply NpFacts.frombuffer_length, Eb.
Qed.

Lemma score_row_ValueError (row : Sqlite.VectorRow) (ex : Py.exn) :
  score_row query query_norm min_similarity row = Py.Raise ex -> ex = Py.ValueError.
Proof.
  unfold score_row, Np.frombuffer, Np.dot.
  destruct (length (Sqlite.vector_data row) mod 8 =? 0)%nat; py_run; [|congruence].
  destruct (length query =? length _)%nat; py_run; [|congruence].
  destruct (0 <? _)%float; [|discriminate].
  destruct (min_similarity <=? _)%float; discriminate.
Qed.

Lemma scan_shaped (rows : list Sqlite.VectorRow) (hits : list (string * float)) :
  scan query query_norm min_similarity rows = Py.Ok hits -> Forall shaped rows.
Proof.
  revert hits. induction rows as [|row rows IH]; intros hits; [constructor|]. cbn [scan].
  destruct (score_row query query_norm min_similarity row) as [hit|] eqn:Eh; py_run;
    [|discriminate].
  destruct (scan query query_norm min_similarity rows) as [hits'|]; py_run; [|discriminate].
  intros _. constructor; [exact (score_row_shaped row hit Eh)|exact (IH hits' eq_refl)].
Qed.

Lemma scan_ValueError (rows : list Sqlite.VectorRow) (ex : Py.exn) :
  scan query query_norm min_similarity rows = Py.Raise ex -> ex = Py.ValueError.
Proof.
  induction rows as [|row rows IH]; cbn [scan]; [discriminate|].
  destruct (score_row query query_norm min_similarity row) as [hit|ex'] eqn:Eh; py_run.
  - destruct (scan query query_norm min_similarity rows) as [hits'|ex']; py_run; [discriminate|].
    intros [= <-]. apply IH. reflexivity.
  - intros [= <-]. exact (score_row_ValueError row ex' Eh).
Qed.

Lemma scan_length (rows : list Sqlite.VectorRow) (hits : list (string * float)) :
  scan query query_norm min_similarity rows = Py.Ok hits -> (length hits <= length rows)%nat.
Proof.
  revert hits. induction rows as [|row rows IH]; intros hits; cbn [scan].
  - intros [= <-]. reflexivity.
  - destruct (score_row query query_norm min_similarity row) as [hit|] eqn:Eh; py_run;
      [|discriminate].
    destruct (scan query query_norm min_similarity rows) as [hits'|]; py_run; [|discriminate].
    intros [= <-]. rewrite length_app. specialize (IH hits' eq_refl). cbn [length].
    assert (length hit <= 1)%nat; [|lia].
    revert Eh. unfold score_row.
    destruct (Np.frombuffer _); py_run; [|discriminate].
    destruct (Np.dot _ _); py_run; [|discriminate].
    destruct (0 <? _)%float; [|intros [= <-]; cbn; lia].
    destruct (min_similarity <=? _)%float; intros [= <-]; cbn; lia.
Qed.

Lemma scan_complete (rows : list Sqlite.VectorRow) (hits : list (string * float))
    (row : Sqlite.VectorRow) (stored : Np.ndarray) (dot_product : float) :
  scan query query_norm min_similarity rows = Py.Ok hits ->
  In row rows ->
  Np.frombuffer (Sqlite.vector_data row) = Py.Ok stored ->
  Np.dot query stored = Py.Ok dot_product ->
  (0 <? Np.linalg_norm stored)%float = true ->
  (min_similarity <=? dot_product / (query_norm * Np.linalg_norm stored))%float = true ->
  In (Sqlite.vr_node_id row, (dot_product / (query_norm * Np.linalg_norm stored))%float) hits.
Proof.
  revert hits. induction rows as [|r rows IH]; intros hits; cbn [scan]; [intros _ []|].
  destruct (score_row query query_norm min_similarity r) as [hit|] eqn:Eh; py_run;
    [|discriminate].
  destruct (scan query query_norm min_similarity rows) as [hits'|]; py_run; [|discriminate].
  intros [= <-] [->|Hin] Hb Hd Hn Hm; apply in_or_app.
  - left. revert Eh. unfold score_row. rewrite Hb. py_run. rewrite Hd. py_run.
    rewrite Hn, Hm. intros [= <-]. left. reflexivity.
  - right. exact (IH hits' eq_refl Hin Hb Hd Hn Hm).
Qed.

End ScanFacts.

Lemma similarity_search_outcome (db : Sqlite.Db) (query : Np.ndarray) (top_k : Z)
    (min_similarity : float) :
  (Np.linalg_norm query =? 0)%float = false ->
  (aligned db query ->
   exists hits, scan query (Np.linalg_norm query) min_similarity (Sqlite.vectors db) = Py.Ok hits /\
                similarity_search db query top_k min_similarity
                = Py.Ok (Py.slice_to (sort_desc hits) top_k)) /\
  (~ aligned db query ->
   similarity_search db query top_k min_similarity = Py.Raise Py.ValueError).
Proof.
  intros Hq. unfold similarity_search. rewrite Hq. split.
  - intros Hal. destruct (scan_returns query min_similarity _ Hal) as [hits Hs].
    exists hits. rewrite Hs. split; reflexivity.
  - intros Hal.
    destruct (scan query (Np.linalg_norm query) min_similarity (Sqlite.vectors db))
      as [hits|ex] eqn:Es; py_run.
    + exfalso. apply Hal. exact (scan_shaped query min_similarity _ hits Es).
    + rewrite (scan_ValueError query min_similarity _ ex Es). reflexivity.
Qed.

(** X7: the search fails exactly when the norm of the query is not zero and
    a stored vector has another length than the query, and then with
    [ValueError]. *)
Theorem similarity_search_raises_iff (db : Sqlite.Db) (query : Np.ndarray) (top_k : Z)
    (min_similarity : float) :
  (similarity_search db query top_k min_similarity = Py.Raise Py.ValueError <->
   (Np.linalg_norm query =? 0)%float = false /\ ~ aligned db query) /\
  (forall ex, similarity_search db query top_k min_similarity = Py.Raise ex ->
              ex = Py.ValueError).
Proof.
  destruct (Np.linalg_norm query =? 0)%float eqn:Hq.
  - unfold similarity_search. rewrite Hq. split; [split|]; try discriminate.
    intros [H _]. discriminate.
  - destruct (similarity_search_outcome db query top_k min_similarity Hq) as [Hok Hraise].
    split; [split|].
    + intros Hr. split; [reflexivity|]. intros Hal.
      destruct (Hok Hal) as (hits & _ & H). congruence.
    + intros [_ Hal]. exact (Hraise Hal).
    + intros ex Hr. unfold similarity_search in Hr. rewrite Hq in Hr.
      destruct (scan query (Np.linalg_norm query) min_similarity (Sqlite.vectors db))
        as [hits|ex'] eqn:Es; py_run; [discriminate|].
      revert Hr. py_run. intros [= <-]. exact (scan_ValueError query min_similarity _ ex' Es).
Qed.

(** X8: a stored vector of another length than the query makes the search
    for that query fail: [store_embedding] accepts the vector, and every
    search with a query of non-zero norm raises [ValueError] afterwards. *)
Theorem store_then_search_raises (e : VectorEngine) (db : Sqlite.Db)
    (node_id file_path content_hash : string) (embedding query : Np.ndarray) (now top_k : Z)
    (min_similarity : float) :
  length embedding <> length query ->
  (Np.linalg_norm query =? 0)%float = false ->
  similarity_search (store_embedding e db node_id file_path content_hash embedding now)
    query top_k min_similarity
  = Py.Raise Py.ValueError.
Proof.
  intros Hlen Hq. apply (similarity_search_outcome _ query top_k min_similarity Hq).
  unfold aligned. rewrite store_embedding_vectors. intros [_ H]%Forall_app.
  apply Forall_inv in H. cbn [Sqlite.vector_data] in H.
  rewrite NpFacts.length_tobytes in H. lia.
Qed.

Lemma store_then_search_raises_witness :
  length vec1 <> length [f64 1%float; f64 0%float] /\
  (Np.linalg_norm [f64 1%float; f64 0%float] =? 0)%float = false /\
  similarity_search (store_embedding engine0 store3 "D" "d.py" "hd" vec1 4)
    [f64 1%float; f64 0%float] 2 0.5%float
  = Py.Raise Py.ValueError.
Proof.
  assert (H1 : length vec1 <> length [f64 1%float; f64 0%float]) by (cbn; lia).
  assert (H2 : (Np.linalg_norm [f64 1%float; f64 0%float] =? 0)%float = false) by reflexivity.
  split; [exact H1|]. split; [exact H2|].
  exact (store_then_search_raises engine0 store3 "D" "d.py" "hd" vec1
           [f64 1%float; f64 0%float] 4 2 0.5%float H1 H2).
Defined.

Lemma insert_desc_length (x : string * float) (l : list (string * float)) :
  length (insert_desc x l) = S (length l).
Proof.
  induction l as [|y l IH]; [reflexivity|]. cbn [insert_desc].
  destruct (snd x <? snd y)%float; cbn [length]; rewrite ?IH; reflexivity.
Qed.

Lemma sort_desc_length (l : list (string * float)) : length (sort_desc l) = length l.
Proof.
  induction l as [|x l IH]; [reflexivity|]. cbn [sort_desc fold_right].
  rewrite insert_desc_length. fold (sort_desc l). rewrite IH. reflexivity.
Qed.

(** X9: with a limit that is at least the count of stored vectors, the
    search loses nothing: every stored row of positive norm whose score is at
    or above the threshold is in the result, with that score. *)
Theorem similarity_search_complete (db : Sqlite.Db) (query : Np.ndarray) (top_k : Z)
    (min_similarity : float) (results : list (string * float))
    (row : Sqlite.VectorRow) (stored : Np.ndarray) (dot_product : float) :
  get_stored_embeddings_count db <= top_k ->
  (Np.linalg_norm query =? 0)%float = false ->
  similarity_search db query top_k min_similarity = Py.Ok results ->
  In row (Sqlite.vectors db) ->
  Np.frombuffer (Sqlite.vector_data row) = Py.Ok stored ->
  Np.dot query stored = Py.Ok dot_product ->
  (0 <? Np.linalg_norm stored)%float = true ->
  (min_similarity <=? dot_product / (Np.linalg_norm query * Np.linalg_norm stored))%float
  = true ->
  In (Sqlite.vr_node_id row,
      (dot_product / (Np.linalg_norm query * Np.linalg_norm stored))%float) results.
Proof.
  intros Hk Hq Hs Hin Hb Hd Hn Hm. unfold similarity_search in Hs. rewrite Hq in Hs.
  destruct (scan query (Np.linalg_norm query) min_similarity (Sqlite.vectors db))
    as [hits|] eqn:Es; [|discriminate].
  revert Hs. py_run. intros [= <-].
  pose proof (scan_length query min_similarity _ hits Es) as Hlen.
  unfold get_stored_embeddings_count, Sqlite.count_vectors in Hk.
  unfold Py.slice_to. destruct (Z.ltb_spec top_k 0); [lia|].
  rewrite firstn_all2 by (rewrite sort_desc_length; lia).
  apply sort_desc_In.
  exact (scan_complete query min_similarity _ hits row stored dot_product Es Hin Hb Hd Hn Hm).
Qed.

(** X10: a smaller limit returns the first results of a larger one. *)
Theorem similarity_search_prefix (db : Sqlite.Db) (query : Np.ndarray) (top_k top_k' : Z)
    (min_similarity : float) (results results' : list (string * float)) :
  0 <= top_k <= top_k' ->
  similarity_search db query top_k min_similarity = Py.Ok results ->
  similarity_search db query top_k' min_similarity = Py.Ok results' ->
  results = firstn (Z.to_nat top_k) results'.
Proof.
  intros Hk. unfold similarity_search.
  destruct (Np.linalg_norm query =? 0)%float.
  { intros [= <-] [= <-]. rewrite firstn_nil. reflexivity. }
  destruct (scan _ _ _ _) as [hits|]; py_run; [|discriminate].
  intros [= <-] [= <-]. unfold Py.slice_to.
  destruct (Z.ltb_spec top_k 0); [lia|]. destruct (Z.ltb_spec top_k' 0); [lia|].
  rewrite firstn_firstn. f_equal. lia.
Qed.

Lemma similarity_search_complete_witness :
  get_stored_embeddings_count store3 <= 3 /\
  In ("B", (1 / sqrt 2)%float)
    (match similarity_search store3 [f64 1%float; f64 0%float] 3 0.5%float with
     | Py.Ok results => results
     | Py.Raise _ => []
     end).
Proof.
  split; [vm_compute; discriminate|].
  assert (Hs : similarity_search store3 [f64 1%float; f64 0%float] 3 0.5%float
               = Py.Ok [("A", 1%float); ("B", (1 / sqrt 2)%float)]) by (vm_compute; reflexivity).
  rewrite Hs.
  apply (similarity_search_complete store3 [f64 1%float; f64 0%float] 3 0.5%float _
           row_B [f64 1%float; f64 1%float] 1%float).
  - vm_compute. discriminate.
  - reflexivity.
  - exact Hs.
  - right. left. reflexivity.
  - reflexivity.
  - reflexivity.
  - reflexivity.
  - reflexivity.
Defined.

Lemma similarity_search_prefix_witness :
  0 <= 1 <= 3 /\
  similarity_search store3 [f64 1%float; f64 0%float] 1 0.5%float = Py.Ok [("A", 1%float)].
Proof.
  assert (Hk : 0 <= 1 <= 3) by lia.
  split; [exact Hk|].
  assert (H3 : similarity_search store3 [f64 1%float; f64 0%float] 3 0.5%float
               = Py.Ok [("A", 1%float); ("B", (1 / sqrt 2)%float)]) by (vm_compute; reflexivity).
  destruct (similarity_search store3 [f64 1%float; f64 0%float] 1 0.5%float) as [r|ex] eqn:H1;
    [|vm_compute in H1; discriminate].
  rewrite (similarity_search_prefix store3 [f64 1%float; f64 0%float] 1 3 0.5%float r _
             Hk H1 H3).
  reflexivity.
Defined.

(** ** The best result comes first *)

Lemma SFleb_trans (f1 f2 f3 : spec_float) :
  SFleb f1 f2 = true -> SFleb f2 f3 = true -> SFleb f1 f3 = true.
Proof.
  unfold SFleb, SFcompare.
  destruct f1 as [[]|[]| |[] m1 e1], f2 as [[]|[]| |[] m2 e2], f3 as [[]|[]| |[] m3 e3];
    try discriminate; try reflexivity;
    change (PosDef.Pos.compare_cont Eq) with Pos.compare;
    destruct (Z.compare_spec e1 e2), (Z.compare_spec e2 e3), (Z.compare_spec e1 e3);
    try discriminate; try reflexivity; try lia;
    destruct (Pos.compare_spec m1 m2), (Pos.compare_spec m2 m3), (Pos.compare_spec m1 m3);
    cbn [CompOpp]; try discriminate; try reflexivity; lia.
Qed.

Lemma descending_trans (a b c : string * float) :
  descending a b -> descending b c -> descending a c.
Proof.
  unfold descending. rewrite !leb_spec. intros Hab Hbc.
  exact (SFleb_trans _ _ _ Hbc Hab).
Qed.

Lemma leb_refl_above (m x : float) : (m <=? x)%float = true -> (x <=? x)%float = true.
Proof.
  intros Hx%FloatOrder.leb_not_nan_r. rewrite leb_spec. unfold SFleb.
  pose proof (FloatOrder.SFcompare_antisym (Prim2SF x) (Prim2SF x)) as Ha.
  pose proof (FloatOrder.SFcompare_defined _ _ Hx Hx) as Hd.
  destruct (SFcompare (Prim2SF x) (Prim2SF x)) as [[]|]; cbn in Ha; congruence.
Qed.

Lemma search_results_sorted (db : Sqlite.Db) (query : Np.ndarray) (min_similarity : float)
    (hits : list (string * float)) :
  scan query (Np.linalg_norm query) min_similarity (Sqlite.vectors db) = Py.Ok hits ->
  StronglySorted descending (sort_desc hits) /\ Forall (passes min_similarity) hits.
Proof.
  intros Es.
  assert (Hp : Forall (passes min_similarity) hits).
  { eapply List.Forall_impl; [|exact (scan_hit db query min_similarity _ hits (fun _ H => H) Es)].
    intros x [Hx _]. exact Hx. }
  split; [|exact Hp].
  apply Sorted_StronglySorted; [intros a b c; apply descending_trans|].
  apply (sort_desc_Sorted min_similarity), Hp.
Qed.

Lemma StronglySorted_firstn {A} (R : A -> A -> Prop) (n : nat) (l : list A) :
  StronglySorted R l -> StronglySorted R (firstn n l).
Proof.
  revert l. induction n as [|n IH]; intros l Hs; [constructor|].
  destruct l as [|x l]; [constructor|]. apply StronglySorted_inv in Hs as [Hs Hall].
  cbn [firstn]. constructor; [apply IH, Hs|].
  rewrite List.Forall_forall in Hall |- *. intros y Hy. apply Hall, (In_firstn y n l), Hy.
Qed.

Lemma firstn_head {A} (n : nat) (l : list A) (x : A) (rest : list A) :
  firstn n l = x :: rest -> exists tl, l = x :: tl.
Proof. destruct n, l as [|y l]; cbn [firstn]; try discriminate. intros [= -> _]. eauto. Qed.

(** X11: the results are in descending order throughout, each one scoring
    at least as high as every later one, whatever the limit; and the first
    result scores at least as high as every stored row that is eligible (its
    norm positive, its score at or above the threshold), returned or cut off
    by the limit. *)
Theorem similarity_search_best_first (db : Sqlite.Db) (query : Np.ndarray) (top_k : Z)
    (min_similarity : float) (results : list (string * float)) :
  similarity_search db query top_k min_similarity = Py.Ok results ->
  StronglySorted descending results /\
  forall first rest row stored dot_product,
    results = first :: rest ->
    In row (Sqlite.vectors db) ->
    Np.frombuffer (Sqlite.vector_data row) = Py.Ok stored ->
    Np.dot query stored = Py.Ok dot_product ->
    (0 <? Np.linalg_norm stored)%float = true ->
    (min_similarity <=? dot_product / (Np.linalg_norm query * Np.linalg_norm stored))%float
    = true ->
    (dot_product / (Np.linalg_norm query * Np.linalg_norm stored) <=? snd first)%float = true.
Proof.
  unfold similarity_search. destruct (Np.linalg_norm query =? 0)%float.
  { intros [= <-]. split; [constructor|discriminate]. }
  destruct (scan query (Np.linalg_norm query) min_similarity (Sqlite.vectors db))
    as [hits|] eqn:Es; py_run; [|discriminate].
  intros [= <-]. destruct (search_results_sorted db query min_similarity hits Es) as [Hs Hp].
  split.
  - unfold Py.slice_to. destruct (top_k <? 0); apply StronglySorted_firstn, Hs.
  - intros first rest row stored d Hres Hin Hb Hd Hn Hm.
    assert (Hhd : exists tl, sort_desc hits = first :: tl).
    { revert Hres. unfold Py.slice_to. destruct (top_k <? 0); apply firstn_head. }
    destruct Hhd as [tl Htl].
    pose proof (scan_complete query min_similarity _ hits row stored d Es Hin Hb Hd Hn Hm) as Hhit.
    apply (sort_desc_In _ hits) in Hhit. rewrite Htl in Hhit, Hs.
    apply StronglySorted_inv in Hs as [_ Hall]. destruct Hhit as [Heq|Hhit].
    + rewrite Heq. cbn [snd]. exact (leb_refl_above min_similarity _ Hm).
    + rewrite List.Forall_forall in Hall. exact (Hall _ Hhit).
Qed.

Lemma similarity_search_best_first_witness :
  similarity_search store3 [f64 1%float; f64 0%float] 1 0.5%float = Py.Ok [("A", 1%float)] /\
  StronglySorted descending [("A", 1%float)].
Proof.
  assert (H : similarity_search store3 [f64 1%float; f64 0%float] 1 0.5%float
              = Py.Ok [("A", 1%float)]) by (vm_compute; reflexivity).
  split; [exact H|].
  exact (proj1 (similarity_search_best_first store3 _ 1 0.5%float _ H)).
Defined.

(** ** Statistics *)

Lemma count_by_model_fold (rows : list Sqlite.MetadataRow) (m0 : gmap string Z) (model : string) :
  fold_left
    (fun m r => <[ Sqlite.md_embedding_model r
                   := default 0 (m !! Sqlite.md_embedding_model r) + 1 ]> m) rows m0 !! model
  = match length (List.filter (fun r => String.eqb (Sqlite.md_embedding_model r) model) rows) with
    | O => m0 !! model
    | S n => Some (default 0 (m0 !! model) + Z.of_nat (S n))
    end.
Proof.
  revert m0. induction rows as [|r rows IH]; intros m0; [reflexivity|].
  cbn [fold_left List.filter]. rewrite IH.
  destruct (String.eqb_spec (Sqlite.md_embedding_model r) model) as [->|Hne].
  - cbn [length]. rewrite lookup_insert_eq. cbn [default].
    unfold id. destruct (length _); f_equal; lia.
  - rewrite lookup_insert_ne by exact Hne. reflexivity.
Qed.

(** X12: the statistics count the metadata rows per model and the vector
    rows in total: a model has an entry exactly when a metadata row names it,
    with the number of those rows, and the total is the count of vectors. *)
Theorem get_embedding_stats_counts (db : Sqlite.Db) (model : string) :
  by_model (get_embedding_stats db) !! model
  = (if (rows_of_model db model =? 0)%nat then None
     else Some (Z.of_nat (rows_of_model db model))) /\
  total_vectors (get_embedding_stats db) = get_stored_embeddings_count db.
Proof.
  split; [|reflexivity].
  unfold get_embedding_stats, Sqlite.count_by_model, rows_of_model. cbn [by_model].
  rewrite count_by_model_fold, lookup_empty. destruct (length _); [reflexivity|].
  cbn [default Nat.eqb]. f_equal.
Qed.

(** ** The generator *)

Section GeneratorShape.

Variable md5_int : string -> Z.

Lemma add_at_length (xs : list float) (pos : Z) (x : float) :
  length (Np.add_at xs pos x) = length xs.
Proof. unfold Np.add_at. apply length_alter. Qed.

Lemma scatter_length (n_words : Z) (tf : list float) (item : string * Z) :
  length (scatter md5_int n_words tf item) = length tf.
Proof.
  destruct item as [word count]. unfold scatter.
  generalize (positions md5_int word). intros ps. revert tf.
  induction ps as [|p ps IH]; intros tf; [reflexivity|].
  cbn [fold_left]. rewrite IH. apply add_at_length.
Qed.

Lemma tf_vector_of_length (words : list string) :
  length (tf_vector_of md5_int words) = Z.to_nat embedding_dim.
Proof.
  unfold tf_vector_of. generalize (count_words words). intros wc.
  assert (H : length (Np.zeros embedding_dim) = Z.to_nat embedding_dim) by apply repeat_length.
  revert H. generalize (Np.zeros embedding_dim). induction wc as [|item wc IH]; intros tf H.
  - exact H.
  - cbn [fold_left]. apply IH. rewrite scatter_length. exact H.
Qed.

Lemma add_length (xs ys : list float) : length xs = length ys -> length (Np.add xs ys) = length xs.
Proof.
  revert ys. induction xs as [|x xs IH]; intros [|y ys] H; try discriminate; [reflexivity|].
  cbn [Np.add length]. f_equal. apply IH. injection H as H. exact H.
Qed.

Lemma normalize_length (v : list float) : length (normalize v) = length v.
Proof.
  unfold normalize. destruct (0 <? _)%float; [|reflexivity]. apply length_map.
Qed.

(** X13: the fallback generator returns a vector of [embedding_dim]
    elements, the noise being of that length, for every text and hash; and
    the two positions of a word are indices of that vector, for every value
    of the hash. *)
Theorem simple_tfidf_embedding_dimension (e : VectorEngine) (text : string) (noise : list float) :
  length noise = Z.to_nat embedding_dim ->
  Z.of_nat (length (fst (simple_tfidf_embedding md5_int e text noise))) = embedding_dim /\
  forall word, Forall (fun pos => 0 <= pos < embedding_dim) (positions md5_int word).
Proof.
  intros Hn. split.
  - unfold simple_tfidf_embedding. cbn [fst]. unfold Np.array.
    rewrite length_map, normalize_length, add_length by (rewrite tf_vector_of_length; congruence).
    rewrite tf_vector_of_length. reflexivity.
  - intros word. unfold positions.
    repeat constructor; apply Z.mod_pos_bound; reflexivity.
Qed.

(** X14: [generate_embedding] is the fallback generator, in its vector and
    in the engine it leaves, whenever the model is not a "BAAI/" one, or no
    transformer is loaded, or the transformer raises on the text. *)
Theorem generate_embedding_fallback (e : VectorEngine) (text : string) (noise : list float) :
  startswith (embedding_model e) "BAAI/" = false \/
  transformer_model e = None \/
  (exists model ex, transformer_model e = Some model /\ encode model text = Py.Raise ex) ->
  generate_embedding md5_int e text noise = simple_tfidf_embedding md5_int e text noise.
Proof.
  intros H. unfold generate_embedding, transformer_embedding.
  destruct (String.eqb _ _); [reflexivity|].
  destruct (startswith (embedding_model e) "BAAI/"); [|reflexivity].
  destruct H as [H|[H|(model & ex & Hm & He)]]; [discriminate|rewrite H; reflexivity|].
  rewrite Hm, He. reflexivity.
Qed.

(** X15: with a "BAAI/" model and a transformer that answers, the vector of
    [generate_embedding] is the vector of the transformer as it is, of
    whatever length; the engine, its vocabulary included, is left as it was
    and the noise is not used. *)
Theorem generate_embedding_transformer (e : VectorEngine) (text : string) (noise : list float)
    (model : SentenceTransformer) (embedding : Np.ndarray) :
  startswith (embedding_model e) "BAAI/" = true ->
  transformer_model e = Some model ->
  encode model text = Py.Ok embedding ->
  generate_embedding md5_int e text noise = (embedding, e).
Proof.
  intros Hp Hm He. unfold generate_embedding, transformer_embedding.
  destruct (String.eqb_spec (embedding_model e) "simple_tfidf") as [E|_].
  - rewrite E in Hp. discriminate.
  - rewrite Hp, Hm, He. reflexivity.
Qed.

End GeneratorShape.

Lemma simple_tfidf_embedding_dimension_witness :
  length (Np.zeros embedding_dim) = Z.to_nat embedding_dim /\
  Z.of_nat (length (fst (simple_tfidf_embedding sample_md5 engine0 "vector search engine"
                           (Np.zeros embedding_dim)))) = embedding_dim.
Proof.
  assert (H : length (Np.zeros embedding_dim) = Z.to_nat embedding_dim) by reflexivity.
  split; [exact H|].
  exact (proj1 (simple_tfidf_embedding_dimension sample_md5 engine0 "vector search engine"
                  (Np.zeros embedding_dim) H)).
Defined.

Lemma generate_embedding_fallback_witness :
  (exists model ex, transformer_model engine_bge_broken = Some model /\
                    encode model "query" = Py.Raise ex) /\
  generate_embedding sample_md5 engine_bge_broken "query" (Np.zeros embedding_dim)
  = simple_tfidf_embedding sample_md5 engine_bge_broken "query" (Np.zeros embedding_dim).
Proof.
  assert (H : exists model ex, transformer_model engine_bge_broken = Some model /\
                               encode model "query" = Py.Raise ex)
    by (exists broken_model, Py.RuntimeError; split; reflexivity).
  split; [exact H|].
  exact (generate_embedding_fallback sample_md5 engine_bge_broken "query"
           (Np.zeros embedding_dim) (or_intror (or_intror H))).
Defined.

Lemma generate_embedding_transformer_witness :
  startswith (embedding_model engine_bge) "BAAI/" = true /\
  generate_embedding sample_md5 engine_bge "query" (Np.zeros embedding_dim)
  = ([f64 1%float; f64 2%float; f64 3%float], engine_bge).
Proof.
  split; [reflexivity|].
  exact (generate_embedding_transformer sample_md5 engine_bge "query" (Np.zeros embedding_dim)
           short_model _ eq_refl eq_refl eq_refl).
Defined.

(** ** Counting words *)

Lemma bump_keys (w : string) (wc : list (string * Z)) (k : string) :
  In k (map fst (bump w wc)) <-> k = w \/ In k (map fst wc).
Proof.
  induction wc as [|[k' c] wc IH]; cbn [bump map fst In].
  - intuition congruence.
  - destruct (String.eqb_spec k' w) as [->|Hne]; cbn [map fst In]; [|rewrite IH]; intuition congruence.
Qed.

Lemma bump_NoDup (w : string) (wc : list (string * Z)) :
  List.NoDup (map fst wc) -> List.NoDup (map fst (bump w wc)).
Proof.
  induction wc as [|[k c] wc IH]; cbn [bump map fst]; intros Hnd.
  - constructor; [intros []|constructor].
  - destruct (String.eqb_spec k w) as [->|Hne]; [exact Hnd|].
    apply List.NoDup_cons_iff in Hnd as [Hk Hnd]. cbn [map fst]. constructor; [|apply IH, Hnd].
    rewrite bump_keys. intros [->|H]; [congruence|exact (Hk H)].
Qed.

Lemma bump_get (w : string) (wc : list (string * Z)) (k : string) :
  get_count (bump w wc) k = get_count wc k + (if String.eqb w k then 1 else 0).
Proof.
  induction wc as [|[k' c] wc IH]; cbn [bump get_count].
  - destruct (String.eqb w k); reflexivity.
  - destruct (String.eqb_spec k' w) as [->|Hne]; cbn [get_count].
    + destruct (String.eqb w k); lia.
    + destruct (String.eqb_spec k' k) as [->|Hk]; [|exact IH].
      destruct (String.eqb_spec w k); [congruence|lia].
Qed.

Lemma bump_total (w : string) (wc : list (string * Z)) :
  total_count (bump w wc) = total_count wc + 1.
Proof.
  induction wc as [|[k c] wc IH]; cbn [bump total_count fold_right snd]; [lia|].
  destruct (String.eqb k w); cbn [total_count fold_right snd]; [lia|].
  fold (total_count (bump w wc)). fold (total_count wc). lia.
Qed.

(** The counts after the words [seen] have been read. *)
Lemma count_words_from (words seen : list string) (wc : list (string * Z)) :
  List.NoDup (map fst wc) ->
  (forall k, In k (map fst wc) <-> In k seen) ->
  (forall k, get_count wc k = Z.of_nat (count_occ string_dec seen k)) ->
  total_count wc = Z.of_nat (length seen) ->
  let wc' := fold_left (fun wc w => bump w wc) words wc in
  List.NoDup (map fst wc') /\
  (forall k, In k (map fst wc') <-> In k (seen ++ words)) /\
  (forall k, get_count wc' k = Z.of_nat (count_occ string_dec (seen ++ words) k)) /\
  total_count wc' = Z.of_nat (length (seen ++ words)).
Proof.
  revert seen wc. induction words as [|w words IH]; intros seen wc Hnd Hkeys Hget Htot.
  - cbn [fold_left]. rewrite app_nil_r. auto.
  - cbn [fold_left]. change (seen ++ w :: words)%list with (seen ++ [w] ++ words)%list.
    rewrite app_assoc. apply IH.
    + apply bump_NoDup, Hnd.
    + intros k. rewrite bump_keys, in_app_iff, Hkeys. cbn [In]. intuition congruence.
    + intros k. rewrite bump_get, Hget, count_occ_app. cbn [count_occ].
      destruct (String.eqb_spec w k), (string_dec w k); try congruence; lia.
    + rewrite bump_total, Htot, length_app. cbn [length]. lia.
Qed.

(** X16: the word count of the generator holds each distinct word of the
    text once and no other word, the count of a word is the number of its
    occurrences, and the counts add up to the number of words. *)
Theorem count_words_counts (words : list string) :
  List.NoDup (map fst (count_words words)) /\
  (forall w, In w (map fst (count_words words)) <-> In w words) /\
  (forall w, get_count (count_words words) w = Z.of_nat (count_occ string_dec words w)) /\
  total_count (count_words words) = Z.of_nat (length words).
Proof.
  apply (count_words_from words [] []).
  - constructor.
  - intros k. reflexivity.
  - intros k. reflexivity.
  - reflexivity.
Qed.

(** ** The vocabulary *)

Lemma learn_ok (vocab : gmap string nat) (w : string) :
  vocabulary_ok vocab -> vocabulary_ok (learn vocab w).
Proof.
  intros [Hlt Hinj]. unfold learn. destruct (vocab !! w) eqn:Ew; [split; assumption|].
  split.
  - intros w' i. rewrite map_size_insert_None by exact Ew.
    destruct (decide (w = w')) as [->|Hne].
    + rewrite lookup_insert_eq. intros [= <-]. lia.
    + rewrite lookup_insert_ne by exact Hne. intros H%Hlt. lia.
  - intros w1 w2 i.
    destruct (decide (w = w1)) as [E1|H1], (decide (w = w2)) as [E2|H2]; subst;
      rewrite ?lookup_insert_eq, ?lookup_insert_ne by assumption.
    + reflexivity.
    + intros [= <-] H%Hlt. lia.
    + intros H%Hlt [= <-]. lia.
    + apply Hinj.
Qed.

Lemma learn_stable (vocab : gmap string nat) (w w' : string) (i : nat) :
  vocab !! w' = Some i -> learn vocab w !! w' = Some i.
Proof.
  intros H. unfold learn. destruct (vocab !! w) eqn:Ew; [exact H|].
  rewrite lookup_insert_ne; [exact H|]. intros ->. congruence.
Qed.

Lemma learn_domain (vocab : gmap string nat) (w w' : string) :
  is_Some (learn vocab w !! w') <-> is_Some (vocab !! w') \/ w' = w.
Proof.
  unfold learn. destruct (vocab !! w) eqn:Ew.
  - split; [tauto|]. intros [H| ->]; [exact H|rewrite Ew; eauto].
  - destruct (decide (w = w')) as [->|Hne].
    + rewrite lookup_insert_eq. split; eauto.
    + rewrite lookup_insert_ne by exact Hne. split; [tauto|]. intros [H| ->]; [exact H|congruence].
Qed.

Lemma learn_all (words : list string) (vocab : gmap string nat) :
  vocabulary_ok vocab ->
  vocabulary_ok (fold_left learn words vocab) /\
  (forall w i, vocab !! w = Some i -> fold_left learn words vocab !! w = Some i) /\
  (forall w, is_Some (fold_left learn words vocab !! w) <-> is_Some (vocab !! w) \/ In w words).
Proof.
  revert vocab. induction words as [|w0 words IH]; intros vocab Hok; cbn [fold_left In].
  - split; [exact Hok|]. split; [tauto|]. intros w. tauto.
  - destruct (IH (learn vocab w0) (learn_ok vocab w0 Hok)) as (Hok' & Hst & Hdom).
    split; [exact Hok'|]. split.
    + intros w i H. apply Hst, learn_stable, H.
    + intros w. rewrite Hdom, learn_domain. intuition congruence.
Qed.

(** X17: a call of the fallback generator keeps the vocabulary an index
    table (indices below its size, no index shared), keeps the index of every
    word it held, and adds exactly the tokens of the text. *)
Theorem simple_tfidf_embedding_vocabulary (md5_int : string -> Z) (e : VectorEngine)
    (text : string) (noise : list float) :
  vocabulary_ok (vocabulary e) ->
  let e' := snd (simple_tfidf_embedding md5_int e text noise) in
  vocabulary_ok (vocabulary e') /\
  (forall w i, vocabulary e !! w = Some i -> vocabulary e' !! w = Some i) /\
  (forall w, is_Some (vocabulary e' !! w) <->
             is_Some (vocabulary e !! w) \/ In w (tokenize text)).
Proof. intros Hok. exact (learn_all (tokenize text) (vocabulary e) Hok). Qed.

Lemma simple_tfidf_embedding_vocabulary_witness :
  vocabulary_ok (vocabulary engine0) /\
  vocabulary_ok (vocabulary (snd (simple_tfidf_embedding sample_md5 engine0 "the fox and the dog"
                                    (Np.zeros embedding_dim)))).
Proof.
  assert (H : vocabulary_ok (vocabulary engine0)).
  { split; intros *; cbn; rewrite lookup_empty; discriminate. }
  split; [exact H|].
  exact (proj1 (simple_tfidf_embedding_vocabulary sample_md5 engine0 "the fox and the dog"
                  (Np.zeros embedding_dim) H)).
Defined.

(** ** The tokens of a text *)

Lemma lower_char_not_upper (c : ascii) : is_upper (Text.lower_char c) = false.
Proof. destruct c as [[] [] [] [] [] [] [] []]; reflexivity. Qed.

Lemma lower_char_idem (c : ascii) : Text.lower_char (Text.lower_char c) = Text.lower_char c.
Proof. destruct c as [[] [] [] [] [] [] [] []]; reflexivity. Qed.

Lemma lower_idem (s : string) : Text.lower (Text.lower s) = Text.lower s.
Proof.
  induction s as [|c s IH]; [reflexivity|]. cbn [Text.lower]. rewrite lower_char_idem, IH.
  reflexivity.
Qed.

Lemma lower_chars (s : string) : Forall (fun c => is_upper c = false) (chars (Text.lower s)).
Proof.
  induction s as [|c s IH]; cbn [Text.lower chars]; constructor; [|exact IH].
  apply lower_char_not_upper.
Qed.

Lemma chars_append (a b : string) : chars (String.append a b) = (chars a ++ chars b)%list.
Proof. induction a as [|c a IH]; [reflexivity|]. simpl. f_equal. exact IH. Qed.

Section Words.

Variable P : ascii -> Prop.

Lemma flush_chars (cur : string) (rest : list string) :
  Forall P (chars cur) -> Forall (fun w => Forall P (chars w)) rest ->
  Forall (fun w => Forall P (chars w)) (Text.flush cur rest).
Proof. intros Hc Hr. destruct cur; [exact Hr|]. constructor; assumption. Qed.

Lemma split_from_chars (s cur : string) :
  Forall P (chars cur) ->
  Forall (fun c => Text.is_space c = false -> P c) (chars s) ->
  Forall (fun w => Forall P (chars w)) (Text.split_from cur s).
Proof.
  revert cur. induction s as [|c s IH]; intros cur Hcur Hs; cbn [Text.split_from].
  - apply flush_chars; [exact Hcur|constructor].
  - cbn [chars] in Hs. apply Forall_cons_1 in Hs as [Hc Hs].
    destruct (Text.is_space c) eqn:E.
    + apply flush_chars; [exact Hcur|]. apply IH; [constructor|exact Hs].
    + apply IH; [|exact Hs]. rewrite chars_append. apply Forall_app. split; [exact Hcur|].
      constructor; [exact (Hc eq_refl)|constructor].
Qed.

Lemma lstrip_chars (p s : string) : Forall P (chars s) -> Forall P (chars (Text.lstrip p s)).
Proof.
  induction s as [|c s IH]; intros H; [exact H|]. cbn [Text.lstrip].
  destruct (Text.mem c p); [|exact H]. apply IH. cbn [chars] in H.
  apply Forall_cons_1 in H as [_ H]. exact H.
Qed.

Lemma rstrip_chars (p s : string) : Forall P (chars s) -> Forall P (chars (Text.rstrip p s)).
Proof.
  induction s as [|c s IH]; intros H; [exact H|]. cbn [Text.rstrip chars] in *.
  apply Forall_cons_1 in H as [Hc H]. specialize (IH H).
  destruct (Text.rstrip p s) as [|c' r].
  - destruct (Text.mem c p); [constructor|]. repeat constructor. exact Hc.
  - cbn [chars]. constructor; [exact Hc|exact IH].
Qed.

End Words.

Lemma lstrip_first (p s : string) (c : ascii) :
  first_char (Text.lstrip p s) = Some c -> Text.mem c p = false.
Proof.
  induction s as [|c0 s IH]; cbn [Text.lstrip]; [discriminate|].
  destruct (Text.mem c0 p) eqn:E; [exact IH|]. intros [= <-]. exact E.
Qed.

Lemma rstrip_first (p s : string) (c : ascii) :
  (forall c0, first_char s = Some c0 -> Text.mem c0 p = false) ->
  first_char (Text.rstrip p s) = Some c -> Text.mem c p = false.
Proof.
  destruct s as [|c0 s]; cbn [Text.rstrip]; [discriminate|]. intros H.
  destruct (Text.rstrip p s); [destruct (Text.mem c0 p); [discriminate|]|];
    intros [= <-]; apply H; reflexivity.
Qed.

Lemma rstrip_last (p s : string) (c : ascii) :
  last_char (Text.rstrip p s) = Some c -> Text.mem c p = false.
Proof.
  induction s as [|c0 s IH]; cbn [Text.rstrip]; [discriminate|].
  destruct (Text.rstrip p s) as [|c1 r].
  - destruct (Text.mem c0 p) eqn:E; [discriminate|]. intros [= <-]. exact E.
  - exact IH.
Qed.

(** X18: every token of a text is clean: it holds no upper-case letter and
    no white space, and it neither starts nor ends with one of the
    characters [.,!?;:()[]{}]. *)
Theorem tokenize_clean (text w : string) :
  In w (tokenize text) ->
  Forall (fun c => is_upper c = false /\ Text.is_space c = false) (chars w) /\
  (forall c, first_char w = Some c -> Text.mem c punctuation = false) /\
  (forall c, last_char w = Some c -> Text.mem c punctuation = false).
Proof.
  unfold tokenize. fold punctuation. intros (word & <- & Hw)%in_map_iff.
  apply List.filter_In in Hw as [Hw _].
  assert (Hchars : Forall (fun c => is_upper c = false /\ Text.is_space c = false)
                     (chars word)).
  { assert (Hall : Forall (fun w => Forall (fun c => is_upper c = false /\
                                                     Text.is_space c = false) (chars w))
                     (Text.split (Text.lower text))).
    { apply split_from_chars; [constructor|].
      eapply List.Forall_impl; [|apply lower_chars]. intros c Hc Hs. split; assumption. }
    rewrite List.Forall_forall in Hall. exact (Hall word Hw). }
  unfold Text.strip. split; [|split].
  - apply rstrip_chars, lstrip_chars, Hchars.
  - intros c. apply rstrip_first. intros c0. apply lstrip_first.
  - intros c. apply rstrip_last.
Qed.

Lemma tokenize_clean_witness :
  In "fox" (tokenize "The (Quick) FOX!!") /\
  Forall (fun c => is_upper c = false /\ Text.is_space c = false) (chars "fox").
Proof.
  assert (H : In "fox" (tokenize "The (Quick) FOX!!")) by (right; right; left; reflexivity).
  split; [exact H|]. exact (proj1 (tokenize_clean "The (Quick) FOX!!" "fox" H)).
Defined.

(** X19: the fallback generator does not see the case of letters: a text
    and its lower-case form get the same vector and leave the same
    vocabulary. *)
Theorem simple_tfidf_embedding_case_insensitive (md5_int : string -> Z) (e : VectorEngine)
    (text : string) (noise : list float) :
  simple_tfidf_embedding md5_int e (Text.lower text) noise
  = simple_tfidf_embedding md5_int e text noise.
Proof.
  unfold simple_tfidf_embedding.
  assert (H : tokenize (Text.lower text) = tokenize text)
    by (unfold tokenize; rewrite lower_idem; reflexivity).
  rewrite H. reflexivity.
Qed.

(** ** The cache in front of the generator *)

Lemma well_formedb_spec (a : Np.ndarray) : well_formedb a = true -> Np.well_formed a.
Proof.
  unfold well_formedb, Np.well_formed. rewrite forallb_forall, List.Forall_forall.
  intros H w Hw. specialize (H w Hw). apply andb_prop in H as [H1 H2].
  split; [apply Z.leb_le, H1|apply Z.ltb_lt, H2].
Qed.

Section CacheFacts.

Variable md5_int : string -> Z.
Variable sha256_hexdigest : string -> string.

Local Abbreviation key := (_get_embedding_cache_key sha256_hexdigest).

Lemma cache_key_set_redis (e : VectorEngine) (c : option RedisClient) (text : string) :
  key (set_redis_client e c) text = key e text.
Proof. reflexivity. Qed.

Lemma cache_key_generate (e : VectorEngine) (text text' : string) (noise : list float) :
  key (snd (generate_embedding md5_int e text noise)) text' = key e text'.
Proof.
  unfold generate_embedding, transformer_embedding.
  destruct (String.eqb _ _); [reflexivity|].
  destruct (startswith _ _); [|reflexivity].
  destruct (transformer_model e) as [model|]; [|reflexivity].
  destruct (encode model text); reflexivity.
Qed.

Lemma get_cached_embedding_miss (e : VectorEngine) (text : string) :
  cache_miss sha256_hexdigest e text <->
  get_cached_embedding sha256_hexdigest e text = Py.Ok None.
Proof.
  unfold cache_miss, get_cached_embedding. destruct (redis_client e) as [client|]; [|tauto].
  destruct (redis_get client (key e text)) as [[data|]|ex]; py_run; cbn [Py.try_except];
    [|tauto|tauto].
  destruct data as [|b data]; cbn [nonempty]; [tauto|].
  unfold Np.frombuffer. destruct (Nat.eqb_spec (length (b :: data) mod 8) 0) as [E|E]; py_run.
  - split; [intros [H|H]; [discriminate|contradiction]|discriminate].
  - split; [reflexivity|]. intros _. right. exact E.
Qed.

Lemma generate_embedding_cached_on_miss (e : VectorEngine) (text : string) (noise : list float) :
  get_cached_embedding sha256_hexdigest e text = Py.Ok None ->
  generate_embedding_cached md5_int sha256_hexdigest e text noise
  = (Py.Ok (fst (generate_embedding md5_int e text noise)),
     snd (cache_embedding sha256_hexdigest (snd (generate_embedding md5_int e text noise)) text
            (fst (generate_embedding md5_int e text noise)))).
Proof.
  intros Hget. unfold generate_embedding_cached. rewrite Hget.
  destruct (generate_embedding md5_int e text noise) as [embedding e1]. cbn [fst snd].
  pose proof (cache_operations_return sha256_hexdigest e1 text embedding) as [_ Hput].
  destruct (cache_embedding sha256_hexdigest e1 text embedding) as [stored e2].
  cbn [fst snd] in *. rewrite Hput. reflexivity.
Qed.

Lemma cache_embedding_vocabulary (e : VectorEngine) (text : string) (embedding : Np.ndarray) :
  vocabulary (snd (cache_embedding sha256_hexdigest e text embedding)) = vocabulary e.
Proof.
  unfold cache_embedding. destruct (redis_client e) as [client|]; [|reflexivity].
  destruct (redis_setex client _ _ _); reflexivity.
Qed.

(** X21: on a hit, that is when the server holds bytes for the key that are
    not empty and decode, [generate_embedding_cached] returns the decoded
    array and nothing else happens: no embedding is generated, the noise is
    not used, the vocabulary and the server are left as they were. *)
Theorem generate_embedding_cached_hit (e : VectorEngine) (text : string) (noise : list float)
    (client : RedisClient) (data : Np.bytes) (cached : Np.ndarray) :
  redis_client e = Some client ->
  redis_get client (key e text) = Py.Ok (Some data) ->
  data <> [] ->
  Np.frombuffer data = Py.Ok cached ->
  generate_embedding_cached md5_int sha256_hexdigest e text noise = (Py.Ok cached, e).
Proof.
  intros Hc Hg Hd Hb. unfold generate_embedding_cached, get_cached_embedding.
  rewrite Hc, Hg. py_run. destruct data; [congruence|]. cbn [nonempty].
  rewrite Hb. py_run. reflexivity.
Qed.

(** X22: every lookup that yields no usable entry is a miss (no client, a
    failing read, an absent key, empty bytes, bytes that are no whole number
    of elements), and on a miss [generate_embedding_cached] returns what
    [generate_embedding] returns and leaves its vocabulary. *)
Theorem generate_embedding_cached_miss (e : VectorEngine) (text : string) (noise : list float) :
  (cache_miss sha256_hexdigest e text <->
   get_cached_embedding sha256_hexdigest e text = Py.Ok None) /\
  (cache_miss sha256_hexdigest e text ->
   fst (generate_embedding_cached md5_int sha256_hexdigest e text noise)
   = Py.Ok (fst (generate_embedding md5_int e text noise)) /\
   vocabulary (snd (generate_embedding_cached md5_int sha256_hexdigest e text noise))
   = vocabulary (snd (generate_embedding md5_int e text noise))).
Proof.
  split; [apply get_cached_embedding_miss|].
  intros Hmiss%get_cached_embedding_miss.
  rewrite (generate_embedding_cached_on_miss e text noise Hmiss). cbn [fst snd].
  split; [reflexivity|apply cache_embedding_vocabulary].
Qed.

(** X23: what [cache_embedding] writes, [get_cached_embedding] reads back,
    when the server keeps the write: the same array, bit for bit, except that
    an empty array is read back as a miss. The write uses the key of the text
    and the lifetime of 604800 seconds. *)
Theorem cache_embedding_roundtrip (e : VectorEngine) (text : string) (embedding : Np.ndarray)
    (client client' : RedisClient) :
  redis_client e = Some client ->
  redis_setex client (key e text) 604800 (Np.tobytes embedding) = Py.Ok client' ->
  redis_get client' (key e text) = Py.Ok (Some (Np.tobytes embedding)) ->
  Np.well_formed embedding ->
  get_cached_embedding sha256_hexdigest
    (snd (cache_embedding sha256_hexdigest e text embedding)) text
  = Py.Ok (match embedding with [] => None | _ => Some embedding end).
Proof.
  intros Hc Hset Hget Hwf. unfold cache_embedding. rewrite Hc.
  change embedding_cache_ttl with 604800. rewrite Hset. py_run. cbn [Py.try_except snd].
  unfold get_cached_embedding. cbn [set_redis_client redis_client].
  rewrite cache_key_set_redis, Hget. py_run.
  destruct embedding as [|w a]; [reflexivity|].
  assert (Hne : nonempty (Np.tobytes (w :: a)) = true) by reflexivity.
  rewrite Hne, (NpFacts.frombuffer_tobytes _ Hwf). reflexivity.
Qed.

(** X24: after a miss on a server that keeps the write, the next call for
    the same text is a hit and returns the vector of the first call, whatever
    noise it would have drawn. *)
Theorem generate_embedding_cached_twice (e : VectorEngine) (text : string)
    (noise noise' : list float) (client client' : RedisClient) :
  let embedding := fst (generate_embedding md5_int e text noise) in
  redis_client e = Some client ->
  redis_get client (key e text) = Py.Ok None ->
  redis_setex client (key e text) 604800 (Np.tobytes embedding) = Py.Ok client' ->
  redis_get client' (key e text) = Py.Ok (Some (Np.tobytes embedding)) ->
  Np.well_formed embedding ->
  embedding <> [] ->
  let e1 := snd (generate_embedding_cached md5_int sha256_hexdigest e text noise) in
  fst (generate_embedding_cached md5_int sha256_hexdigest e text noise) = Py.Ok embedding /\
  fst (generate_embedding_cached md5_int sha256_hexdigest e1 text noise') = Py.Ok embedding.
Proof.
  intros embedding Hc Hmiss Hset Hget Hwf Hne e1.
  assert (Hnone : get_cached_embedding sha256_hexdigest e text = Py.Ok None).
  { unfold get_cached_embedding. rewrite Hc, Hmiss. reflexivity. }
  assert (H1 : generate_embedding_cached md5_int sha256_hexdigest e text noise
               = (Py.Ok embedding,
                  set_redis_client (snd (generate_embedding md5_int e text noise))
                    (Some client'))).
  { rewrite (generate_embedding_cached_on_miss e text noise Hnone). fold embedding. f_equal.
    unfold cache_embedding. rewrite generate_embedding_redis, Hc, cache_key_generate.
    change embedding_cache_ttl with 604800. rewrite Hset. reflexivity. }
  split; [rewrite H1; reflexivity|].
  unfold e1. rewrite H1. cbn [snd].
  rewrite (generate_embedding_cached_hit _ text noise' client' (Np.tobytes embedding) embedding).
  - reflexivity.
  - reflexivity.
  - rewrite cache_key_set_redis, cache_key_generate. exact Hget.
  - intros Hnil. apply Hne. apply (f_equal (@length _)) in Hnil.
    rewrite NpFacts.length_tobytes in Hnil. destruct embedding; [reflexivity|discriminate].
  - apply NpFacts.frombuffer_tobytes, Hwf.
Qed.

(** X25: an engine built while the server cannot be reached, or does not
    answer the ping, has no cache for good: every cached generation is the
    plain generation, in its vector and in the engine it leaves. *)
Theorem init_without_cache (env_model : option string) (connect : Py.result RedisClient)
    (load : Py.result SentenceTransformer) (text : string) (noise : list float) :
  (exists ex, connect = Py.Raise ex) \/
  (exists client ex, connect = Py.Ok client /\ redis_ping client = Py.Raise ex) ->
  let e := init env_model connect load in
  redis_client e = None /\
  generate_embedding_cached md5_int sha256_hexdigest e text noise
  = (Py.Ok (fst (generate_embedding md5_int e text noise)),
     snd (generate_embedding md5_int e text noise)).
Proof.
  intros H e.
  assert (Hnone : redis_client e = None).
  { unfold e, init. cbn [redis_client].
    destruct H as [[ex ->]|(client & ex & -> & Hp)]; py_run; [reflexivity|].
    rewrite Hp. reflexivity. }
  split; [exact Hnone|].
  assert (Hget : get_cached_embedding sha256_hexdigest e text = Py.Ok None)
    by (unfold get_cached_embedding; rewrite Hnone; reflexivity).
  rewrite (generate_embedding_cached_on_miss e text noise Hget). f_equal.
  unfold cache_embedding. rewrite generate_embedding_redis, Hnone. reflexivity.
Qed.

(** X26: with a model that is not a "BAAI/" one, the embedding of a query by
    [generate_query_embedding] is that of the fallback generator, whether
    the server and the transformer are there or not. *)
Theorem generate_query_embedding_fallback (env_model : option string)
    (connect : Py.result RedisClient) (load : Py.result SentenceTransformer)
    (query : string) (noise : list float) :
  startswith (default "simple_tfidf" env_model) "BAAI/" = false ->
  generate_query_embedding md5_int env_model connect load query noise
  = fst (simple_tfidf_embedding md5_int engine0 query noise).
Proof.
  intros H. unfold generate_query_embedding, generate_embedding.
  cbn [init embedding_model]. rewrite H. destruct (String.eqb _ _); reflexivity.
Qed.

End CacheFacts.

Lemma generate_embedding_cached_hit_witness :
  generate_embedding_cached sample_md5 sample_sha256
    (set_redis_client engine0
       (Some (memory_redis 0 {[ _get_embedding_cache_key sample_sha256 engine0 "query"
                                := Np.tobytes vec2 ]})))
    "query" (Np.zeros embedding_dim)
  = (Py.Ok vec2,
     set_redis_client engine0
       (Some (memory_redis 0 {[ _get_embedding_cache_key sample_sha256 engine0 "query"
                                := Np.tobytes vec2 ]}))).
Proof.
  apply (generate_embedding_cached_hit sample_md5 sample_sha256 _ "query" _
           (memory_redis 0 {[ _get_embedding_cache_key sample_sha256 engine0 "query"
                              := Np.tobytes vec2 ]}) (Np.tobytes vec2) vec2).
  - reflexivity.
  - cbn [redis_get memory_redis]. rewrite lookup_singleton_eq. reflexivity.
  - discriminate.
  - reflexivity.
Defined.

Lemma cache_embedding_roundtrip_witness :
  Np.well_formed vec2 /\
  get_cached_embedding sample_sha256
    (snd (cache_embedding sample_sha256 engine_cached "query" vec2)) "query"
  = Py.Ok (Some vec2).
Proof.
  assert (Hwf : Np.well_formed vec2) by (apply well_formedb_spec; reflexivity).
  split; [exact Hwf|].
  apply (cache_embedding_roundtrip sample_sha256 engine_cached "query" vec2
           (memory_redis 2 ∅)
           (memory_redis 1 (<[ _get_embedding_cache_key sample_sha256 engine_cached "query"
                               := Np.tobytes vec2 ]> ∅))).
  - reflexivity.
  - reflexivity.
  - cbn [redis_get memory_redis]. rewrite lookup_insert_eq. reflexivity.
  - exact Hwf.
Defined.

Lemma init_without_cache_witness :
  (exists ex, @Py.Raise RedisClient Py.ConnectionError = Py.Raise ex) /\
  redis_client (init None (Py.Raise Py.ConnectionError) (Py.Raise Py.RuntimeError)) = None.
Proof.
  assert (H : exists ex, @Py.Raise RedisClient Py.ConnectionError = Py.Raise ex)
    by (exists Py.ConnectionError; reflexivity).
  split; [exact H|].
  exact (proj1 (init_without_cache sample_md5 sample_sha256 None _
                  (Py.Raise Py.RuntimeError) "query" [] (or_introl H))).
Defined.

Lemma generate_query_embedding_fallback_witness :
  startswith (default "simple_tfidf" (Some "all-MiniLM")) "BAAI/" = false /\
  generate_query_embedding sample_md5 (Some "all-MiniLM") (Py.Ok failing_redis)
    (Py.Ok short_model) "query" (Np.zeros embedding_dim)
  = fst (simple_tfidf_embedding sample_md5 engine0 "query" (Np.zeros embedding_dim)).
Proof.
  split; [reflexivity|].
  apply (generate_query_embedding_fallback sample_md5 (Some "all-MiniLM")). reflexivity.
Defined.

Lemma generate_embedding_cached_twice_witness :
  let embedding := fst (generate_embedding sample_md5 engine_bge_cached "query" []) in
  Np.well_formed embedding /\
  fst (generate_embedding_cached sample_md5 sample_sha256
         (snd (generate_embedding_cached sample_md5 sample_sha256 engine_bge_cached "query" []))
         "query" [1%float])
  = Py.Ok embedding.
Proof.
  intros embedding.
  assert (Hwf : Np.well_formed embedding) by (apply well_formedb_spec; reflexivity).
  split; [exact Hwf|].
  apply (generate_embedding_cached_twice sample_md5 sample_sha256 engine_bge_cached "query"
           [] [1%float] (memory_redis 2 ∅)
           (memory_redis 1 (<[ _get_embedding_cache_key sample_sha256 engine_bge_cached "query"
                               := Np.tobytes embedding ]> ∅))).
  - reflexivity.
  - cbn [redis_get memory_redis]. rewrite lookup_empty. reflexivity.
  - reflexivity.
  - cbn [redis_get memory_redis]. rewrite lookup_insert_eq. reflexivity.
  - exact Hwf.
  - discriminate.
Defined.

(** ** A cleared store is a new store *)

Lemma same_records_store (e : VectorEngine) (db1 db2 : Sqlite.Db)
    (node_id file_path content_hash : string) (embedding : Np.ndarray) (now : Z) :
  same_records db1 db2 ->
  same_records (store_embedding e db1 node_id file_path content_hash embedding now)
    (store_embedding e db2 node_id file_path content_hash embedding now).
Proof.
  intros [Hm Hv]. split.
  - rewrite !store_embedding_metadata. apply List.Forall2_app.
    + clear Hv. induction Hm as [|m1 m2 l1 l2 H _ IH]; [constructor|].
      cbn [List.filter]. destruct H as (Hn & Hrest). rewrite Hn.
      destruct (negb _); [constructor; [split; assumption|exact IH]|exact IH].
    + repeat constructor.
  - rewrite !store_embedding_vectors. apply List.Forall2_app; [exact Hv|].
    repeat constructor.
Qed.

Lemma same_records_store_all (e : VectorEngine) (calls : list StoreCall) (db1 db2 : Sqlite.Db) :
  same_records db1 db2 -> same_records (store_all e db1 calls) (store_all e db2 calls).
Proof.
  revert db1 db2. induction calls as [|[[[[node f] h] v] t] calls IH]; intros db1 db2 H; [exact H|].
  rewrite !store_all_cons. apply IH, same_records_store, H.
Qed.

Section SameRecords.

Variables db1 db2 : Sqlite.Db.
Hypothesis Hsame : same_records db1 db2.

Lemma same_records_select (n : string) :
  Sqlite.select_vector_data db1 n = Sqlite.select_vector_data db2 n.
Proof.
  destruct Hsame as [_ Hv]. unfold Sqlite.select_vector_data.
  induction Hv as [|r1 r2 l1 l2 (Hn & Hd & _) _ IH]; [reflexivity|].
  cbn [List.find]. rewrite Hn. destruct (String.eqb _ n); [|exact IH].
  cbn. rewrite Hd. reflexivity.
Qed.

Lemma same_records_scan (query : Np.ndarray) (query_norm min_similarity : float) :
  scan query query_norm min_similarity (Sqlite.vectors db1)
  = scan query query_norm min_similarity (Sqlite.vectors db2).
Proof.
  destruct Hsame as [_ Hv].
  induction Hv as [|r1 r2 l1 l2 (Hn & Hd & _) _ IH]; [reflexivity|].
  cbn [scan]. rewrite IH. unfold score_row. rewrite Hn, Hd. reflexivity.
Qed.

Lemma same_records_stats : get_embedding_stats db1 = get_embedding_stats db2.
Proof.
  destruct Hsame as [Hm Hv]. unfold get_embedding_stats. f_equal.
  - unfold Sqlite.count_by_model. generalize (∅ : gmap string Z).
    induction Hm as [|m1 m2 l1 l2 (_ & _ & _ & Hmodel & _) _ IH]; intros m0; [reflexivity|].
    cbn [fold_left]. rewrite Hmodel. apply IH.
  - unfold Sqlite.count_vectors. rewrite (Forall2_length _ _ _ Hv). reflexivity.
  - unfold Sqlite.avg_vector_norm.
    assert (H : omap Sqlite.vector_norm (Sqlite.vectors db1)
                = omap Sqlite.vector_norm (Sqlite.vectors db2)).
    { induction Hv as [|r1 r2 l1 l2 (_ & _ & Hnorm) _ IH]; [reflexivity|].
      cbn [omap list_omap]. rewrite Hnorm, IH. reflexivity. }
    rewrite H. reflexivity.
Qed.

End SameRecords.

(** X27: a cleared store behaves as a new one: after [clear_embeddings],
    whatever the store held, a run of stores gives the same vectors, the same
    count, the same search results and the same statistics as the same run
    on a new store. *)
Theorem clear_embeddings_resets (e : VectorEngine) (db : Sqlite.Db) (calls : list StoreCall) :
  let cleared := store_all e (clear_embeddings db) calls in
  let fresh := store_all e (initialize_vector_store None) calls in
  (forall n, get_embedding cleared n = get_embedding fresh n) /\
  get_stored_embeddings_count cleared = get_stored_embeddings_count fresh /\
  (forall query top_k min_similarity,
     similarity_search cleared query top_k min_similarity
     = similarity_search fresh query top_k min_similarity) /\
  get_embedding_stats cleared = get_embedding_stats fresh.
Proof.
  intros cleared fresh.
  assert (H : same_records cleared fresh).
  { apply same_records_store_all. split; constructor. }
  split; [|split; [|split]].
  - intros n. unfold get_embedding. rewrite (same_records_select _ _ H n). reflexivity.
  - unfold cleared, fresh. rewrite !count_store_all. reflexivity.
  - intros query top_k min_similarity. unfold similarity_search.
    rewrite (same_records_scan _ _ H). reflexivity.
  - apply same_records_stats, H.
Qed.

(** ** The key of a cache entry *)

Lemma length_append (a b : string) :
  String.length (String.append a b) = (String.length a + String.length b)%nat.
Proof. induction a as [|c a IH]; [reflexivity|]. simpl. rewrite IH. reflexivity. Qed.

Lemma append_inj (a a' b b' : string) :
  String.length b = String.length b' ->
  String.append a b = String.append a' b' -> a = a' /\ b = b'.
Proof.
  revert a'. induction a as [|c a IH]; intros [|c' a'] Hlen; simpl.
  - intros H. split; [reflexivity|exact H].
  - intros H. apply (f_equal String.length) in H. rewrite ?length_append in H. simpl in H.
    rewrite ?length_append in H. lia.
  - intros H. apply (f_equal String.length) in H. rewrite ?length_append in H. simpl in H.
    rewrite ?length_append in H. lia.
  - intros [= -> H]. destruct (IH a' Hlen H) as [-> ->]. split; reflexivity.
Qed.

Lemma append_inj_l (p x y : string) : String.append p x = String.append p y -> x = y.
Proof. induction p as [|c p IH]; simpl; [tauto|]. intros [= H]. exact (IH H). Qed.

Lemma length_substring (n : nat) (s : string) :
  (n <= String.length s)%nat -> String.length (String.substring 0 n s) = n.
Proof.
  revert s. induction n as [|n IH]; intros [|c s] H; simpl in *; try reflexivity; try lia.
  rewrite IH by lia. reflexivity.
Qed.

(** X28: the key of a cache entry tells the model and the first 16
    characters of the digest of the text, and nothing else: for digests of 16
    characters or more, two keys are equal exactly when the models are equal
    and the digests agree on their first 16 characters. *)
Theorem cache_key_injective (sha256_hexdigest : string -> string) (e1 e2 : VectorEngine)
    (text1 text2 : string) :
  (16 <= String.length (sha256_hexdigest text1))%nat ->
  (16 <= String.length (sha256_hexdigest text2))%nat ->
  (_get_embedding_cache_key sha256_hexdigest e1 text1
   = _get_embedding_cache_key sha256_hexdigest e2 text2 <->
   embedding_model e1 = embedding_model e2 /\
   String.substring 0 16 (sha256_hexdigest text1)
   = String.substring 0 16 (sha256_hexdigest text2)).
Proof.
  intros H1 H2. unfold _get_embedding_cache_key. split.
  - intros H%append_inj_l. apply append_inj in H as [Hm H].
    + split; [exact Hm|]. exact (append_inj_l ":" _ _ H).
    + rewrite !length_append, !length_substring by assumption. reflexivity.
  - intros [-> ->]. reflexivity.
Qed.

Lemma cache_key_injective_witness :
  (16 <= String.length (sample_sha256 "one"))%nat /\
  (16 <= String.length (sample_sha256 "two"))%nat /\
  _get_embedding_cache_key sample_sha256 engine0 "one"
  = _get_embedding_cache_key sample_sha256 engine_cached "two".
Proof.
  assert (H1 : (16 <= String.length (sample_sha256 "one"))%nat) by (cbn; lia).
  assert (H2 : (16 <= String.length (sample_sha256 "two"))%nat) by (cbn; lia).
  split; [exact H1|]. split; [exact H2|].
  apply (cache_key_injective sample_sha256 engine0 engine_cached "one" "two" H1 H2).
  split; reflexivity.
Defined.

(** ** A negative limit *)

(** X29: a negative limit is a slice stop counted from the end: the search
    then returns all the results but the last [- top_k] ones, that is the
    results of a search with a limit of the count of vectors or more, cut by
    that many at the end. *)
Theorem similarity_search_negative_limit (db : Sqlite.Db) (query : Np.ndarray)
    (top_k top_k' : Z) (min_similarity : float) (results results' : list (string * float)) :
  top_k < 0 ->
  get_stored_embeddings_count db <= top_k' ->
  similarity_search db query top_k min_similarity = Py.Ok results ->
  similarity_search db query top_k' min_similarity = Py.Ok results' ->
  results = firstn (length results' - Z.to_nat (- top_k)) results'.
Proof.
  intros Hk Hk'. unfold similarity_search.
  destruct (Np.linalg_norm query =? 0)%float.
  { intros [= <-] [= <-]. reflexivity. }
  destruct (scan query (Np.linalg_norm query) min_similarity (Sqlite.vectors db))
    as [hits|] eqn:Es; py_run; [|discriminate].
  pose proof (scan_length query min_similarity _ hits Es) as Hlen.
  unfold get_stored_embeddings_count, Sqlite.count_vectors in Hk'.
  intros [= <-] [= <-]. unfold Py.slice_to.
  destruct (Z.ltb_spec top_k 0); [|lia]. destruct (Z.ltb_spec top_k' 0); [lia|].
  rewrite (firstn_all2 (n := Z.to_nat top_k')) by (rewrite sort_desc_length; lia).
  reflexivity.
Qed.

Lemma similarity_search_negative_limit_witness :
  -1 < 0 /\ get_stored_embeddings_count store3 <= 3 /\
  similarity_search store3 [f64 1%float; f64 0%float] (-1) 0.5%float = Py.Ok [("A", 1%float)].
Proof.
  assert (H1 : -1 < 0) by lia.
  assert (H2 : get_stored_embeddings_count store3 <= 3) by (vm_compute; discriminate).
  split; [exact H1|]. split; [exact H2|].
  assert (H3 : similarity_search store3 [f64 1%float; f64 0%float] 3 0.5%float
               = Py.Ok [("A", 1%float); ("B", (1 / sqrt 2)%float)]) by (vm_compute; reflexivity).
  destruct (similarity_search store3 [f64 1%float; f64 0%float] (-1) 0.5%float) as [r|ex] eqn:Hr;
    [|vm_compute in Hr; discriminate].
  rewrite (similarity_search_negative_limit store3 _ (-1) 3 0.5%float r _ H1 H2 Hr H3).
  reflexivity.
Defined.

(** ** The fallback generator in exact arithmetic

    Over the real numbers the norm of a vector is zero only for the zero
    vector, and dividing any other vector by its norm gives norm 1. *)

Module ExactFacts.

Import Reals Lra.
Local Open Scope R_scope.

Local Abbreviation E := Generic.exact.
Local Abbreviation dot_from := (Generic.dot_from E).
Local Abbreviation norm_values := (Generic.norm_values E).
Local Abbreviation all_zeros := Generic.zero_vector.
Local Abbreviation nonneg := Generic.nonneg.
Local Abbreviation some_positive := Generic.some_positive.

Lemma dot_from_acc (acc : R) (xs ys : list R) :
  dot_from acc xs ys = acc + dot_from 0 xs ys.
Proof.
  revert acc ys. induction xs as [|x xs IH]; intros acc [|y ys]; cbn; try lra.
  rewrite (IH (acc + x * y)), (IH (0 + x * y)). lra.
Qed.

Lemma dot_self_nonneg (xs : list R) : 0 <= dot_from 0 xs xs.
Proof.
  induction xs as [|x xs IH]; cbn; [lra|].
  rewrite dot_from_acc. pose proof (Rle_0_sqr x) as Hx. unfold Rsqr in Hx. lra.
Qed.

Lemma dot_self_zero (xs : list R) : dot_from 0 xs xs = 0 <-> all_zeros xs.
Proof.
  unfold Generic.zero_vector. induction xs as [|x xs IH]; cbn.
  - split; [constructor|reflexivity].
  - rewrite dot_from_acc. pose proof (dot_self_nonneg xs) as Hxs.
    pose proof (Rle_0_sqr x) as Hx. unfold Rsqr in Hx. split.
    + intros H. assert (Hx0 : x * x = 0) by lra.
      apply Rmult_integral in Hx0.
      constructor; [destruct Hx0; congruence|]. apply IH. lra.
    + intros H. inversion H as [|? ? Hx0 Hrest]; subst. apply IH in Hrest. lra.
Qed.

Lemma dot_div_scalar (xs : list R) (s : R) :
  s <> 0 ->
  dot_from 0 (Generic.div_scalar E xs s) (Generic.div_scalar E xs s)
  = dot_from 0 xs xs / (s * s).
Proof.
  intros Hs. change (Generic.div_scalar E xs s) with (map (fun x => x / s) xs).
  induction xs as [|x xs IH]; cbn; [field; exact Hs|].
  rewrite dot_from_acc, (dot_from_acc (0 + x * x)), IH. field. exact Hs.
Qed.

Lemma norm_nonneg (v : list R) : 0 <= norm_values v.
Proof. apply sqrt_pos. Qed.

Lemma norm_zero (v : list R) : norm_values v = 0 <-> all_zeros v.
Proof.
  rewrite <- dot_self_zero. unfold Generic.norm_values. cbn. split.
  - intros H. apply sqrt_eq_0; [apply dot_self_nonneg|exact H].
  - intros ->. apply sqrt_0.
Qed.

Lemma positive_norm (v : list R) :
  Generic.positive E (norm_values v) = true <-> ~ all_zeros v.
Proof.
  rewrite <- norm_zero. pose proof (norm_nonneg v) as Hn.
  cbn [Generic.positive Generic.exact].
  destruct (Rlt_dec 0 (norm_values v)) as [Hlt|Hnlt].
  - split; [intros _ H0; lra|reflexivity].
  - split; [discriminate|]. intros H. exfalso. apply H. lra.
Qed.

(** Lines 141-144 in exact arithmetic: a vector that is not zero is scaled
    to norm 1, the zero vector is returned as it is. *)
Lemma normalize_norm (v : list R) :
  ~ all_zeros v -> norm_values (Generic.normalize E v) = 1.
Proof.
  intros Hv. unfold Generic.normalize.
  destruct (Generic.positive E (norm_values v)) eqn:Ep;
    [|apply positive_norm in Hv; congruence].
  assert (Hn : norm_values v <> 0) by (rewrite norm_zero; exact Hv).
  unfold Generic.norm_values at 1. rewrite dot_div_scalar by exact Hn.
  unfold Generic.norm_values. cbn. rewrite sqrt_sqrt by apply dot_self_nonneg.
  assert (Hd : dot_from 0 v v <> 0) by (rewrite dot_self_zero; exact Hv).
  replace (dot_from 0 v v / dot_from 0 v v) with 1 by (field; exact Hd).
  apply sqrt_1.
Qed.

Lemma normalize_zero (v : list R) : all_zeros v -> Generic.normalize E v = v.
Proof.
  intros Hv. unfold Generic.normalize.
  destruct (Generic.positive E (norm_values v)) eqn:Ep; [|reflexivity].
  apply positive_norm in Ep. contradiction.
Qed.

(** *** The term frequencies *)

Lemma exact_add_at_length (tf : list R) (pos : Z) (x : R) :
  length (Generic.add_at E tf pos x) = length tf.
Proof. apply length_alter. Qed.

Lemma add_at_nonneg (tf : list R) (pos : Z) (x : R) :
  0 <= x -> nonneg tf -> nonneg (Generic.add_at E tf pos x).
Proof.
  intros Hx Htf. unfold Generic.nonneg in *. apply Forall_alter; [exact Htf|]. intros y _ Hy. cbn. lra.
Qed.

Lemma add_at_some_positive (tf : list R) (pos : Z) (x : R) :
  0 <= x -> some_positive tf -> some_positive (Generic.add_at E tf pos x).
Proof.
  intros Hx (i & y & Hi & Hy). unfold Generic.add_at.
  destruct (decide (i = Z.to_nat pos)) as [->|Hne].
  - exists (Z.to_nat pos), (y + x). split; [|lra].
    rewrite list_lookup_alter_eq, Hi. reflexivity.
  - exists i, y. split; [|exact Hy]. rewrite list_lookup_alter_ne by congruence. exact Hi.
Qed.

Lemma add_at_positive (tf : list R) (pos : Z) (x : R) :
  0 < x -> nonneg tf -> (Z.to_nat pos < length tf)%nat ->
  some_positive (Generic.add_at E tf pos x).
Proof.
  intros Hx Htf Hpos. destruct (lookup_lt_is_Some_2 tf (Z.to_nat pos) Hpos) as [y Hy].
  exists (Z.to_nat pos), (y + x). split.
  - unfold Generic.add_at. rewrite list_lookup_alter_eq, Hy. reflexivity.
  - assert (0 <= y); [|lra].
    unfold Generic.nonneg in Htf. rewrite Forall_lookup in Htf. exact (Htf _ _ Hy).
Qed.

Section TermFrequencies.

Variable md5_int : string -> Z.

Lemma scatter_positive (n_words : Z) (tf : list R) (word : string) (count : Z) :
  (0 < count)%Z -> (0 < n_words)%Z -> nonneg tf -> length tf = Z.to_nat embedding_dim ->
  let tf' := Generic.scatter E md5_int n_words tf (word, count) in
  nonneg tf' /\ length tf' = Z.to_nat embedding_dim /\ some_positive tf'.
Proof.
  intros Hc Hn Htf Hlen.
  assert (Hw : 0 < IZR count / IZR n_words).
  { apply Rdiv_lt_0_compat; apply IZR_lt; assumption. }
  cbn. split; [|split].
  - apply add_at_nonneg; [lra|]. apply add_at_nonneg; [lra|exact Htf].
  - rewrite !exact_add_at_length. exact Hlen.
  - apply add_at_some_positive; [lra|]. apply add_at_positive; [exact Hw|exact Htf|].
    rewrite Hlen. unfold embedding_dim.
    pose proof (Z.mod_pos_bound (md5_int word) 1024 eq_refl). lia.
Qed.

Lemma scatter_all (n_words : Z) (items : list (string * Z)) (tf : list R) :
  (0 < n_words)%Z -> Forall (fun item => (0 < snd item)%Z) items ->
  nonneg tf -> length tf = Z.to_nat embedding_dim ->
  let tf' := fold_left (Generic.scatter E md5_int n_words) items tf in
  nonneg tf' /\ length tf' = Z.to_nat embedding_dim /\
  (some_positive tf \/ items <> [] -> some_positive tf').
Proof.
  intros Hn Hitems. revert tf.
  induction Hitems as [|[word count] items Hc _ IH]; intros tf Htf Hlen.
  - cbn. split; [exact Htf|]. split; [exact Hlen|].
    intros [H|H]; [exact H|contradiction].
  - cbn [fold_left].
    destruct (scatter_positive n_words tf word count Hc Hn Htf Hlen) as (H1 & H2 & H3).
    destruct (IH _ H1 H2) as (H4 & H5 & H6).
    split; [exact H4|]. split; [exact H5|]. intros _. apply H6. left. exact H3.
Qed.

Lemma bump_counts (word : string) (word_count : list (string * Z)) :
  Forall (fun item => (0 < snd item)%Z) word_count ->
  Forall (fun item => (0 < snd item)%Z) (bump word word_count) /\ bump word word_count <> [].
Proof.
  induction 1 as [|[w c] rest Hc Hrest IH]; cbn.
  - split; [repeat constructor|discriminate].
  - destruct (String.eqb w word).
    + split; [constructor; [cbn in *; lia|exact Hrest]|discriminate].
    + split; [constructor; [exact Hc|apply IH]|discriminate].
Qed.

Lemma count_words_positive (words : list string) :
  Forall (fun item => (0 < snd item)%Z) (count_words words) /\
  (words <> [] -> count_words words <> []).
Proof.
  unfold count_words.
  assert (H : forall wc, Forall (fun item => (0 < snd item)%Z) wc ->
            Forall (fun item => (0 < snd item)%Z) (fold_left (fun wc w => bump w wc) words wc) /\
            (wc <> [] \/ words <> [] -> fold_left (fun wc w => bump w wc) words wc <> [])).
  { induction words as [|w words IH]; intros wc Hwc.
    - cbn. split; [exact Hwc|]. intros [H|H]; [exact H|contradiction].
    - cbn [fold_left]. destruct (bump_counts w wc Hwc) as [H1 H2].
      destruct (IH _ H1) as [H3 H4]. split; [exact H3|]. intros _. apply H4. left. exact H2. }
  destruct (H [] (List.Forall_nil _)) as [H1 H2]. split; [exact H1|].
  intros Hw. apply H2. right. exact Hw.
Qed.

Lemma zeros_nonneg (n : Z) : nonneg (Generic.zeros E n).
Proof.
  unfold Generic.nonneg, Generic.zeros. apply List.Forall_forall.
  intros x Hx%repeat_spec. subst. cbn. lra.
Qed.

Lemma zeros_all_zeros (n : Z) : all_zeros (Generic.zeros E n).
Proof.
  unfold Generic.zero_vector, Generic.zeros. apply List.Forall_forall.
  intros x Hx%repeat_spec. subst. reflexivity.
Qed.

(** The term-frequency vector has 1024 elements, none of them negative, and
    one of them positive when the text has a token. *)
Lemma tf_vector_of_shape (words : list string) :
  let tf := Generic.tf_vector_of E md5_int words in
  nonneg tf /\ length tf = Z.to_nat embedding_dim /\ (words <> [] -> some_positive tf).
Proof.
  destruct (count_words_positive words) as [Hc Hne].
  destruct words as [|w words].
  - split; [apply zeros_nonneg|]. split; [apply repeat_length|congruence].
  - destruct (scatter_all (Z.of_nat (length (w :: words))) (count_words (w :: words))
                (Generic.zeros E embedding_dim)) as (H1 & H2 & H3);
      [cbn [length]; lia|exact Hc|apply zeros_nonneg|apply repeat_length|].
    split; [exact H1|]. split; [exact H2|].
    intros _. apply H3. right. apply Hne. discriminate.
Qed.

End TermFrequencies.

Lemma add_zeros (xs : list R) :
  Generic.add E xs (Generic.zeros E (Z.of_nat (length xs))) = xs.
Proof.
  unfold Generic.zeros. rewrite Nat2Z.id.
  induction xs as [|x xs IH]; [reflexivity|]. cbn. rewrite Rplus_0_r. f_equal. exact IH.
Qed.

Lemma some_positive_not_zero (tf : list R) : some_positive tf -> ~ all_zeros tf.
Proof.
  intros (i & y & Hi & Hy) Hz. unfold Generic.zero_vector in Hz. rewrite Forall_lookup in Hz.
  specialize (Hz _ _ Hi). lra.
Qed.

End ExactFacts.

Section Normalised.

Import Reals.

Local Abbreviation E := Generic.exact.

(** C3, as the code has it: the generator returns the sum of the term
    frequencies and the noise, divided by its norm when that norm is
    positive. For a text without tokens the frequencies are zero, so the
    result is the normalised noise; it is the all-zero vector when the noise
    drawn is all zero. In exact arithmetic the result of every text, with or
    without tokens, has norm 1 unless the sum is the zero vector, which is
    then returned; with zero noise that is norm 1 for every text with a token
    and the zero vector for every other text. *)
Theorem simple_tfidf_embedding_normalised (md5_int : string -> Z) (text : string) :
  (forall (e : VectorEngine) (noise : list float),
     fst (simple_tfidf_embedding md5_int e text noise)
     = Np.array (Generic.simple_tfidf_embedding Generic.binary64 md5_int text noise) /\
     (tokenize text = [] ->
      fst (simple_tfidf_embedding md5_int e text noise)
      = Np.array (normalize (Np.add (Np.zeros embedding_dim) noise)) /\
      (noise = Np.zeros embedding_dim ->
       all_zero (fst (simple_tfidf_embedding md5_int e text noise)) = true))) /\
  (forall noise : list R,
     let tf := Generic.tf_vector_of E md5_int (tokenize text) in
     let v := Generic.add E tf noise in
     let r := Generic.simple_tfidf_embedding E md5_int text noise in
     (Generic.zero_vector v -> r = v) /\
     (~ Generic.zero_vector v -> Generic.norm_values E r = 1%R) /\
     (tokenize text = [] -> v = Generic.add E (Generic.zeros E embedding_dim) noise) /\
     (noise = Generic.zeros E embedding_dim ->
      (tokenize text = [] -> Generic.zero_vector r) /\
      (tokenize text <> [] -> Generic.norm_values E r = 1%R))).
Proof.
  split.
  - intros e noise. split; [reflexivity|]. intros Hw.
    assert (H : fst (simple_tfidf_embedding md5_int e text noise)
                = Np.array (normalize (Np.add (Np.zeros embedding_dim) noise))).
    { unfold simple_tfidf_embedding. rewrite Hw. reflexivity. }
    split; [exact H|]. intros ->. rewrite H. vm_compute. reflexivity.
  - intros noise tf v r.
    split; [apply ExactFacts.normalize_zero|]. split; [apply ExactFacts.normalize_norm|].
    split; [intros Hw; subst v tf; rewrite Hw; reflexivity|].
    intros ->. destruct (ExactFacts.tf_vector_of_shape md5_int (tokenize text)) as (_ & Hlen & Hpos).
    fold tf in Hlen, Hpos.
    assert (Hv : v = tf).
    { subst v. replace embedding_dim with (Z.of_nat (length tf)) by (rewrite Hlen; reflexivity).
      apply ExactFacts.add_zeros. }
    split.
    + intros Hw. unfold r, Generic.simple_tfidf_embedding. fold tf. fold v.
      assert (Hz : Generic.zero_vector v).
      { rewrite Hv. subst tf. rewrite Hw. apply ExactFacts.zeros_all_zeros. }
      rewrite (ExactFacts.normalize_zero v Hz). exact Hz.
    + intros Hw. apply ExactFacts.normalize_norm. fold tf. fold v. rewrite Hv.
      apply ExactFacts.some_positive_not_zero, Hpos, Hw.
Qed.

Lemma simple_tfidf_embedding_normalised_witness :
  tokenize "the quick fox" <> [] /\
  Generic.norm_values E
    (Generic.simple_tfidf_embedding E sample_md5 "the quick fox" (Generic.zeros E embedding_dim))
  = 1%R.
Proof.
  assert (H : tokenize "the quick fox" <> []) by (vm_compute; discriminate).
  split; [exact H|].
  exact (proj2 (proj2 (proj2 (proj2
           (proj2 (simple_tfidf_embedding_normalised sample_md5 "the quick fox")
              (Generic.zeros E embedding_dim)))) eq_refl) H).
Defined.

End Normalised.

(** In binary64 the norm of a result is 1 up to rounding: for "the quick
    fox" and no noise the norm computed by [Np.linalg_norm] (squares added
    from the first element on) is not 1, and less than [2^-50] away from
    it. *)
Example simple_tfidf_embedding_norm_rounded :
  let embedding :=
    fst (simple_tfidf_embedding sample_md5 engine0 "the quick fox" (Np.zeros embedding_dim)) in
  (Np.linalg_norm embedding =? 1)%float = false /\
  (abs (1 - Np.linalg_norm embedding) <? Z.ldexp 1 (-50))%float = true.
Proof. intros embedding. split; vm_compute; reflexivity. Qed.

(** A draw of the noise that cancels the term frequencies of "the quick fox"
    gives the all-zero vector for a text with tokens. *)
Example simple_tfidf_embedding_noise_cancels :
  let noise := map PrimFloat.opp (tf_vector_of sample_md5 (tokenize "the quick fox")) in
  tokenize "the quick fox" = ["the"; "quick"; "fox"] /\
  all_zero (fst (simple_tfidf_embedding sample_md5 engine0 "the quick fox" noise)) = true.
Proof. intros noise. split; vm_compute; reflexivity. Qed.
